(** * GoogleMapExtractor: the HTML extraction engine of [src/html_extractor.py]

    A shallow embedding of [HTMLGoogleMapsExtractor]: the per-fragment
    extractor [_extract_single_business], the batch loop
    [extract_businesses_from_html], the city inference
    [_extract_city_from_address], the delivery-side city option
    [_get_or_create_ville_option] and the driver [process_html_file].

    Modelling conventions.
    - A Python [str] is a list of Unicode code points ([list N]).  Literals are
      written [u"..."], which decodes the UTF-8 bytes of a Rocq string.
    - The character tables ([\d], [\w], case mappings) transcribe the Unicode
      database for U+0000..U+017F (Basic Latin, Latin-1 Supplement, Latin
      Extended-A), the alphabet of the French listings the extractor targets;
      the whitespace table is complete.  Code points above U+017F are caseless
      and are neither digits nor word characters here.
    - A [dict] is a [gmap string value]; a BeautifulSoup tree is the inductive
      [node]; code that can raise returns a [result].
    - [int] is the interpreter's of CPython 3.11, with its default limit of
      4300 digits on the conversion of a string.
    - Console logging has no effect on any returned value and is left out. *)

From Stdlib Require Import ZArith NArith QArith Qreduction Lia.
From Stdlib Require Import Strings.String Strings.Ascii.
From stdpp Require Import base option list gmap strings.

Open Scope N_scope.

(* ===================================================================== *)
(** ** Python strings *)
(* ===================================================================== *)

Module Py.


(** [str]: a sequence of code points. *)
Abbreviation str := (list N).

(** *** UTF-8 decoding of literals *)

Definition cont (b : N) : N := N.land b 63.

Fixpoint utf8_decode (bs : list N) : str :=
  match bs with
  | [] => []
  | b0 :: r0 =>
      if b0 <? 128 then b0 :: utf8_decode r0
      else match r0 with
      | [] => [b0]
      | b1 :: r1 =>
          if b0 <? 224 then
            (N.land b0 31 * 64 + cont b1) :: utf8_decode r1
          else match r1 with
          | [] => [b0]
          | b2 :: r2 =>
              if b0 <? 240 then
                (N.land b0 15 * 4096 + cont b1 * 64 + cont b2)
                  :: utf8_decode r2
              else match r2 with
              | [] => [b0]
              | b3 :: r3 =>
                  (N.land b0 7 * 262144 + cont b1 * 4096
                   + cont b2 * 64 + cont b3) :: utf8_decode r3
              end
          end
      end
  end.

Fixpoint bytes_of (s : string) : list N :=
  match s with
  | EmptyString => []
  | String a s' => N_of_ascii a :: bytes_of s'
  end.

Definition of_utf8 (s : string) : str := utf8_decode (bytes_of s).

(** *** Character classes *)

Definition in_range (lo hi c : N) : bool := (lo <=? c) && (c <=? hi).

(** [Py_UNICODE_ISSPACE]: used by [str.strip], [str.split()] and [\s]. *)
Definition is_space (c : N) : bool :=
  in_range 9 13 c || in_range 28 32 c || (c =? 133) || (c =? 160)
  || (c =? 5760) || in_range 8192 8202 c || (c =? 8232) || (c =? 8233)
  || (c =? 8239) || (c =? 8287) || (c =? 12288).

(** [Py_UNICODE_ISDECIMAL] (category Nd), the class [\d]. *)
Definition is_decimal (c : N) : bool := in_range 48 57 c.

(** [str.isdigit] also accepts the superscript digits. *)
Definition is_digit_char (c : N) : bool :=
  is_decimal c || (c =? 178) || (c =? 179) || (c =? 185).

Definition is_upper_ascii (c : N) : bool := in_range 65 90 c.
Definition is_lower_ascii (c : N) : bool := in_range 97 122 c.

(** Letters (general categories Lu, Ll, Lo) of the modelled range. *)
Definition is_alpha (c : N) : bool :=
  is_upper_ascii c || is_lower_ascii c
  || (c =? 170) || (c =? 181) || (c =? 186)
  || in_range 192 214 c || in_range 216 246 c || in_range 248 383 c.

(** [Py_UNICODE_ISALNUM]: alphabetic, decimal, digit or numeric. *)
Definition is_alnum (c : N) : bool :=
  is_alpha c || is_digit_char c || in_range 188 190 c.

(** The class [\w] of a [str] pattern. *)
Definition is_word (c : N) : bool := is_alnum c || (c =? 95).

(** *** Case mappings *)

Definition even (c : N) : bool := N.even c.

(** Lower-case mapping of one code point ([İ] maps to two). *)
Definition lower_char (c : N) : str :=
  if is_upper_ascii c then [c + 32]
  else if in_range 192 214 c || in_range 216 222 c then [c + 32]
  else if c =? 304 then [105; 775]
  else if c =? 376 then [255]
  else if (in_range 256 311 c || in_range 330 375 c) && even c then [c + 1]
  else if (in_range 313 328 c || in_range 377 382 c) && negb (even c)
       then [c + 1]
  else [c].

(** Title-case mapping of one code point. *)
Definition title_char (c : N) : str :=
  if is_lower_ascii c then [c - 32]
  else if c =? 181 then [924]
  else if c =? 223 then [83; 115]
  else if in_range 224 246 c || in_range 248 254 c then [c - 32]
  else if c =? 255 then [376]
  else if c =? 305 then [73]
  else if c =? 329 then [700; 78]
  else if c =? 383 then [83]
  else if (in_range 256 311 c || in_range 330 375 c) && negb (even c)
       then [c - 1]
  else if (in_range 313 328 c || in_range 377 382 c) && even c then [c - 1]
  else [c].

(** [_PyUnicode_IsCased]. *)
Definition is_cased (c : N) : bool := is_alpha c.

(** [str.lower()]. *)
Definition lower (s : str) : str := flat_map lower_char s.

(** [str.title()]: a cased character following a cased one is lowered,
    any other one is title-cased. *)
Fixpoint title_from (previous_is_cased : bool) (s : str) : str :=
  match s with
  | [] => []
  | c :: s' =>
      (if previous_is_cased then lower_char c else title_char c)
        ++ title_from (is_cased c) s'
  end.

Definition title (s : str) : str := title_from false s.

(** *** Trimming, searching, splitting *)

Fixpoint drop_while (p : N → bool) (s : str) : str :=
  match s with
  | c :: s' => if p c then drop_while p s' else s
  | [] => []
  end.

Fixpoint take_while (p : N → bool) (s : str) : str :=
  match s with
  | c :: s' => if p c then c :: take_while p s' else []
  | [] => []
  end.

Fixpoint lstrip (s : str) : str :=
  match s with
  | c :: s' => if is_space c then lstrip s' else s
  | [] => []
  end.

Definition rstrip (s : str) : str := reverse (lstrip (reverse s)).

(** [str.strip()]. *)
Definition strip (s : str) : str := rstrip (lstrip s).

Fixpoint eqb (s t : str) : bool :=
  match s, t with
  | [], [] => true
  | c :: s', d :: t' => (c =? d) && eqb s' t'
  | _, _ => false
  end.

Fixpoint starts_with (p s : str) : bool :=
  match p, s with
  | [], _ => true
  | c :: p', d :: s' => (c =? d) && starts_with p' s'
  | _ :: _, [] => false
  end.

(** [sub in s]. *)
Fixpoint contains (sub s : str) : bool :=
  starts_with sub s ||
  match s with
  | [] => false
  | _ :: s' => contains sub s'
  end.

(** [s.replace(a, b)] for one-character [a] and [b]. *)
Definition replace (a b : N) (s : str) : str :=
  map (fun c => if c =? a then b else c) s.

(** [s.split(sep)] for a one-character separator: never empty, and
    [sep.join] of the result is [s]. *)
Fixpoint split (sep : N) (s : str) : list str :=
  match s with
  | [] => [[]]
  | c :: s' =>
      if c =? sep then [] :: split sep s'
      else match split sep s' with
           | w :: ws => (c :: w) :: ws
           | [] => [[c]]
           end
  end.

(** [s.split()]: the maximal runs of non-whitespace characters. *)
Fixpoint split_ws_from (cur : str) (s : str) : list str :=
  match s with
  | [] => if bool_decide (cur = []) then [] else [reverse cur]
  | c :: s' =>
      if is_space c
      then (if bool_decide (cur = []) then [] else [reverse cur])
             ++ split_ws_from [] s'
      else split_ws_from (c :: cur) s'
  end.

Definition split_ws (s : str) : list str := split_ws_from [] s.

(** [sep.join(parts)]. *)
Fixpoint join (sep : str) (parts : list str) : str :=
  match parts with
  | [] => []
  | [p] => p
  | p :: ps => p ++ sep ++ join sep ps
  end.

(** [s.isdigit()]. *)
Definition isdigit (s : str) : bool :=
  negb (bool_decide (s = [])) && forallb is_digit_char s.

(** Truth value of a [str]. *)
Definition truthy (s : str) : bool := negb (bool_decide (s = [])).

End Py.

Notation "'u' s" := (Py.of_utf8 s%string) (at level 1, s at level 0, only parsing).
Export Py (str).

(* ===================================================================== *)
(** ** Exceptions *)
(* ===================================================================== *)

Inductive exn : Type :=
| ValueError
| TypeError
| AttributeError
| IndexError
| OSError
| ParserError.

(** The outcome of code that may raise. *)
Inductive result (A : Type) : Type :=
| Ok (a : A)
| Raise (e : exn).

Arguments Ok {A} a.
Arguments Raise {A} e.

(** [try: body / except: handler]. *)
Definition try_except {A : Type} (body : result A) (handler : exn → A) : A :=
  match body with
  | Ok a => a
  | Raise e => handler e
  end.

(** Sequencing: the first exception raised ends the computation. *)
#[global] Instance result_ret : MRet result := fun _ a => Ok a.
#[global] Instance result_bind : MBind result := fun _ _ f m =>
  match m with
  | Ok a => f a
  | Raise e => Raise e
  end.

(* ===================================================================== *)
(** ** Regular expressions: the fragment of [re] the extractor uses *)
(* ===================================================================== *)

Module Re.

(** Patterns are sequences of character classes, greedy [class+], [\b] and
    one capturing group. *)
Inductive regex : Type :=
| Eps
| Class (p : N → bool)
| Rep1 (p : N → bool)
| WordBoundary
| Cat (r1 r2 : regex)
| Capture (r : regex).

Definition seq (rs : list regex) : regex := foldr Cat Eps rs.

(** A literal string. *)
Definition lit (s : str) : regex := seq (map (fun c => Class (N.eqb c)) s).

(** [\b]: exactly one side of the position is a word character. *)
Definition at_boundary (prev : option N) (s : str) : bool :=
  xorb (from_option Py.is_word false prev)
       (from_option Py.is_word false (head s)).

(** Backtracking matcher in continuation-passing style.  The continuation
    receives the last consumed character, the remaining input and group 1. *)
Definition kont (A : Type) : Type := option N → str → option str → option A.

(** Greedy [class*]: prefer the longer repetition, fall back on failure. *)
Fixpoint star {A : Type} (p : N → bool) (prev : option N) (s : str)
    (g : option str) (k : kont A) : option A :=
  match s with
  | c :: s' =>
      if p c then
        match star p (Some c) s' g k with
        | Some r => Some r
        | None => k prev s g
        end
      else k prev s g
  | [] => k prev s g
  end.

Fixpoint run {A : Type} (r : regex) (prev : option N) (s : str)
    (g : option str) (k : kont A) : option A :=
  match r with
  | Eps => k prev s g
  | Class p =>
      match s with
      | c :: s' => if p c then k (Some c) s' g else None
      | [] => None
      end
  | Rep1 p =>
      match s with
      | c :: s' => if p c then star p (Some c) s' g k else None
      | [] => None
      end
  | WordBoundary => if at_boundary prev s then k prev s g else None
  | Cat r1 r2 => run r1 prev s g (fun prev' s' g' => run r2 prev' s' g' k)
  | Capture r1 =>
      run r1 prev s g
        (fun prev' s' _ => k prev' s' (Some (take (length s - length s') s)))
  end.

(** A match object: [group(0)] and [group(1)]. *)
Record match_object : Type := MatchObject {
  group0 : str;
  group1 : option str
}.

(** Match anchored at the current position. *)
Definition match_at (r : regex) (prev : option N) (s : str)
    : option match_object :=
  run r prev s None
    (fun _ s' g => Some (MatchObject (take (length s - length s') s) g)).

Fixpoint search_from (r : regex) (prev : option N) (s : str)
    : option match_object :=
  match match_at r prev s with
  | Some m => Some m
  | None =>
      match s with
      | c :: s' => search_from r (Some c) s'
      | [] => None
      end
  end.

(** [re.search(r, s)]: the leftmost match. *)
Definition search (r : regex) (s : str) : option match_object :=
  search_from r None s.

(** [re.sub(r, '', s)]: delete the non-overlapping matches, left to right.
    [skip] counts the characters of the current match still to drop. *)
Fixpoint delete_from (r : regex) (prev : option N) (skip : nat) (s : str)
    : str :=
  match s with
  | [] => []
  | c :: s' =>
      match skip with
      | S n => delete_from r (Some c) n s'
      | O =>
          match match_at r prev s with
          | Some m =>
              match length (group0 m) with
              | S n => delete_from r (Some c) n s'
              | O => c :: delete_from r (Some c) O s'
              end
          | None => c :: delete_from r (Some c) O s'
          end
      end
  end.

Definition sub_empty (r : regex) (s : str) : str := delete_from r None O s.

End Re.

(* ===================================================================== *)
(** ** [int] and [float] conversions *)
(* ===================================================================== *)

(** The value of a run of decimal digits. *)
Definition int_of_digits (s : str) : Z :=
  foldl (fun acc c => (10 * acc + Z.of_N (c - 48))%Z) 0%Z s.

(** [sys.get_int_max_str_digits()], at its default. *)
Definition max_str_digits : Z := 4300.

(** [int(s)] on a run of decimal digits: [ValueError] when the run is
    longer than the interpreter's limit. *)
Definition int_ (s : str) : result Z :=
  if (max_str_digits <? Z.of_nat (length s))%Z then Raise ValueError
  else Ok (int_of_digits s).

(** A Python [float], held as the exact value of the literal it was read
    from; rounding to binary64 and the sign of zero are not represented. *)
Inductive pyfloat : Type :=
| Finite (q : Q)
| Infinity (negative : bool)
| NaN.

Module Float.

(** Underscores are allowed between two digits only. *)
Fixpoint drop_underscores (prev : N) (s : str) : option str :=
  match s with
  | [] => if prev =? 95 then None else Some []
  | c :: s' =>
      if c =? 95 then
        if Py.is_decimal prev then drop_underscores c s' else None
      else if (prev =? 95) && negb (Py.is_decimal c) then None
      else cons c <$> drop_underscores c s'
  end.

(** Whitespace trimmed by the conversion. *)
Definition is_float_space (c : N) : bool :=
  Py.in_range 9 13 c || (c =? 32) || ((127 <? c) && Py.is_space c).

Definition trim (s : str) : str :=
  reverse (Py.drop_while is_float_space (reverse (Py.drop_while is_float_space s))).

(** An optional sign: [true] for a minus. *)
Definition sign (s : str) : bool * str :=
  match s with
  | 45 :: s' => (true, s')
  | 43 :: s' => (false, s')
  | _ => (false, s)
  end.

Definition ascii_lower (s : str) : str :=
  map (fun c => if Py.is_upper_ascii c then c + 32 else c) s.

(** The value [m * 10^e] as a reduced fraction. *)
Definition scale (m e : Z) : Q :=
  if (0 <=? e)%Z then Qred (Qmake (m * 10 ^ e) 1)
  else Qred (Qmake m (Z.to_pos (10 ^ (- e)))).

(** The exponent part: empty, or [e]/[E], an optional sign and digits. *)
Definition exponent (s : str) : option Z :=
  match s with
  | [] => Some 0%Z
  | c :: s' =>
      if (c =? 101) || (c =? 69) then
        let '(neg, ds) := sign s' in
        if negb (bool_decide (ds = [])) && forallb Py.is_decimal ds
        then Some (if neg then (- int_of_digits ds)%Z else int_of_digits ds)
        else None
      else None
  end.

(** A decimal literal: digits with an optional point, at least one digit. *)
Definition number (s : str) : option Q :=
  let ip := Py.take_while Py.is_decimal s in
  let r1 := Py.drop_while Py.is_decimal s in
  let '(fp, r2) :=
    match r1 with
    | 46 :: r => (Py.take_while Py.is_decimal r, Py.drop_while Py.is_decimal r)
    | _ => ([], r1)
    end in
  if bool_decide (ip ++ fp = []) then None
  else e ← exponent r2;
       Some (scale (int_of_digits (ip ++ fp)) (e - Z.of_nat (length fp))).

Definition literal (s : str) : option pyfloat :=
  let '(neg, body) := sign s in
  let name := ascii_lower body in
  if bool_decide (name = [105; 110; 102])
     || bool_decide (name = [105; 110; 102; 105; 110; 105; 116; 121])
  then Some (Infinity neg)
  else if bool_decide (name = [110; 97; 110]) then Some NaN
  else q ← number body; Some (Finite (if neg then Qred (Qopp q) else q)).

End Float.

(** [float(s)]: [ValueError] unless [s], trimmed, is a float literal. *)
Definition float_ (s : str) : result pyfloat :=
  match Float.drop_underscores 0 s with
  | None => Raise ValueError
  | Some s' =>
      match Float.literal (Float.trim s') with
      | Some f => Ok f
      | None => Raise ValueError
      end
  end.

(* ===================================================================== *)
(** ** BeautifulSoup trees *)
(* ===================================================================== *)

Module Bs4.

(** A parsed node.  [class_] is the token list of the multi-valued [class]
    attribute, [attrs] holds the single-valued attributes. *)
#[warnings="-register-all"]
Inductive node : Type :=
| NavigableString (s : str)
| Comment (s : str)
| Tag (name : string) (class_ : option (list str))
      (attrs : gmap string str) (contents : list node).

(** A node followed by everything below it, in document order. *)
Fixpoint subtree (n : node) : list node :=
  n :: match n with
       | Tag _ _ _ cs => flat_map subtree cs
       | _ => []
       end.

(** [tag.descendants]. *)
Definition descendants (n : node) : list node :=
  match n with
  | Tag _ _ _ cs => flat_map subtree cs
  | _ => []
  end.

(** The text pieces [get_text(strip=True)] keeps: every string below the
    tag, trimmed, unless that leaves nothing; comments are skipped. *)
Definition stripped_string (n : node) : option str :=
  match n with
  | NavigableString s =>
      let s' := Py.strip s in
      if Py.truthy s' then Some s' else None
  | _ => None
  end.

(** [tag.get_text(strip=True)]. *)
Definition get_text (n : node) : str :=
  concat (omap stripped_string (descendants n)).

(** [tag.get(key)]. *)
Definition get (key : string) (n : node) : option str :=
  match n with
  | Tag _ _ attrs _ => attrs !! key
  | _ => None
  end.

(** *** Search criteria *)

(** [class_=re.compile(r)]: the pattern is searched in each class token,
    then in the tokens joined by single spaces. *)
Definition class_search (r : Re.regex) (cls : option (list str)) : bool :=
  match cls with
  | Some toks =>
      existsb (fun t => bool_decide (is_Some (Re.search r t))) toks
      || bool_decide (is_Some (Re.search r (Py.join [32] toks)))
  | None => false
  end.

(** [class_='name']: some class token, or the joined tokens, equal it. *)
Definition class_is (c : str) (cls : option (list str)) : bool :=
  match cls with
  | Some toks => existsb (Py.eqb c) toks || Py.eqb c (Py.join [32] toks)
  | None => false
  end.

(** [find_all(name, class_=...)] and [find_all(name, attr=True)]: the
    matching tags below [n], in document order. *)
Definition matches (name : string)
    (crit : option (list str) → gmap string str → bool) (n : node) : bool :=
  match n with
  | Tag nm cls attrs _ => bool_decide (nm = name) && crit cls attrs
  | _ => false
  end.

Definition find_all (name : string)
    (crit : option (list str) → gmap string str → bool) (n : node)
    : list node :=
  filter (fun d => matches name crit d = true) (descendants n).

(** [find(...)]: the first result of [find_all], or [None]. *)
Definition find (name : string)
    (crit : option (list str) → gmap string str → bool) (n : node)
    : option node :=
  head (find_all name crit n).

Definition by_class_re (r : Re.regex)
    : option (list str) → gmap string str → bool :=
  fun cls _ => class_search r cls.

Definition by_class (c : str)
    : option (list str) → gmap string str → bool :=
  fun cls _ => class_is c cls.

Definition by_attr (key : string)
    : option (list str) → gmap string str → bool :=
  fun _ attrs => bool_decide (is_Some (attrs !! key)).

End Bs4.
Export Bs4 (node, NavigableString, Comment, Tag).

(* ===================================================================== *)
(** ** Records and the extractor object *)
(* ===================================================================== *)

(** The values stored in a business [dict]. *)
Inductive value : Type :=
| VNone
| VStr (s : str)
| VInt (z : Z)
| VFloat (f : pyfloat).

#[global] Instance Q_eq_dec : EqDecision Q.
Proof. solve_decision. Defined.
#[global] Instance pyfloat_eq_dec : EqDecision pyfloat.
Proof. solve_decision. Defined.
#[global] Instance value_eq_dec : EqDecision value.
Proof. solve_decision. Defined.

Abbreviation dict := (gmap string value).

(** Truth value of [d.get(k)]. *)
Definition truthy_value (v : option value) : bool :=
  match v with
  | None | Some VNone => false
  | Some (VStr s) => Py.truthy s
  | Some (VInt z) => negb (z =? 0)%Z
  | Some (VFloat (Finite q)) => negb (Qnum q =? 0)%Z
  | Some (VFloat _) => true
  end.

(** Truth value of a [dict]. *)
Definition truthy_dict (d : dict) : bool := negb (bool_decide (d = ∅)).

(** [d.setdefault(k, v)]. *)
Definition setdefault (k : string) (v : value) (d : dict) : dict :=
  match d !! k with
  | Some _ => d
  | None => <[k := v]> d
  end.

(** The instance attributes [process_html_file] sets.  The outer [option]
    is [hasattr]; the inner one is the [Optional[str]] held. *)
Record HTMLGoogleMapsExtractor : Type := {
  default_city : option (option str);
  default_business_type : option (option str)
}.

(** [hasattr(self, a) and self.a]: the attribute when it is a non-empty
    string. *)
Definition attr_if_set (a : option (option str)) : option str :=
  match a with
  | Some (Some s) => if Py.truthy s then Some s else None
  | _ => None
  end.

(* ===================================================================== *)
(** ** City inference: [_extract_city_from_address] *)
(* ===================================================================== *)

Definition non_specifiee : str := u"Non spécifiée".
Definition non_specifie : str := u"Non spécifié".

(** [[A-ZÀ-Ÿ]] *)
Definition city_initial (c : N) : bool :=
  Py.in_range 65 90 c || Py.in_range 192 376 c.

(** [[A-Za-zÀ-ÿ\s\-\']] *)
Definition city_char (c : N) : bool :=
  Py.in_range 65 90 c || Py.in_range 97 122 c || Py.in_range 192 255 c
  || Py.is_space c || (c =? 45) || (c =? 39).

(** [\b\d{5}\s+([A-ZÀ-Ÿ][A-Za-zÀ-ÿ\s\-\']+)] *)
Definition city_pattern : Re.regex :=
  Re.seq [Re.WordBoundary;
          Re.Class Py.is_decimal; Re.Class Py.is_decimal;
          Re.Class Py.is_decimal; Re.Class Py.is_decimal;
          Re.Class Py.is_decimal;
          Re.Rep1 Py.is_space;
          Re.Capture (Re.seq [Re.Class city_initial; Re.Rep1 city_char])].

(** [[^\w\s\-\'À-ÿ]] *)
Definition parasite_pattern : Re.regex :=
  Re.Class (fun c => negb (Py.is_word c || Py.is_space c || (c =? 45)
                           || (c =? 39) || Py.in_range 192 255 c)).

(** [\b\d{5}\b] *)
Definition postal_code_pattern : Re.regex :=
  Re.seq [Re.WordBoundary;
          Re.Class Py.is_decimal; Re.Class Py.is_decimal;
          Re.Class Py.is_decimal; Re.Class Py.is_decimal;
          Re.Class Py.is_decimal;
          Re.WordBoundary].

Definition common_cities : list str :=
  [u"Paris"; u"Lyon"; u"Marseille"; u"Toulouse"; u"Nice"; u"Nantes";
   u"Strasbourg"; u"Montpellier"; u"Bordeaux"; u"Lille"; u"Rennes";
   u"Reims"; u"Le Havre"; u"Saint-Étienne"; u"Toulon"; u"Grenoble";
   u"Dijon"; u"Angers"; u"Nîmes"; u"Villeurbanne"].

(** The [for city in common_cities] loop: the first city, in list order,
    whose lower-cased name occurs in the lower-cased address. *)
Fixpoint first_common_city (cities : list str) (address : str)
    : option str :=
  match cities with
  | [] => None
  | city :: rest =>
      if Py.contains (Py.lower city) (Py.lower address) then Some city
      else first_common_city rest address
  end.

(** [m.group(1).strip()]: a group that took no part in the match is
    [None], on which [strip] raises [AttributeError]. *)
Definition group1_strip (m : Re.match_object) : result str :=
  match Re.group1 m with
  | Some text => Ok (Py.strip text)
  | None => Raise AttributeError
  end.

(** [parts[-1]]: [IndexError] on an empty list. *)
Definition last_item (parts : list str) : result str :=
  match last parts with
  | Some part => Ok part
  | None => Raise IndexError
  end.

(** The body of the [try] block on a [str] address. *)
Definition city_on_str (address : str) : result str :=
  match Re.search city_pattern address with
  | Some m =>
      city ← group1_strip m;
      mret (Py.strip (Re.sub_empty parasite_pattern city))
  | None =>
      match first_common_city common_cities address with
      | Some city => mret city
      | None =>
          let parts := Py.split 44 address in
          if (2 <=? length parts)%nat then
            last_part ← last_item parts;
            let last_part := Py.strip last_part in
            let last_part :=
              Py.strip (Re.sub_empty postal_code_pattern last_part) in
            if Py.truthy last_part && (2 <? length last_part)%nat
            then mret last_part
            else mret non_specifiee
          else mret non_specifiee
      end
  end.

(** The [try] block: [re.search] raises [TypeError] unless the address is
    a [str]. *)
Definition city_body (address : value) : result str :=
  match address with
  | VStr a => city_on_str a
  | _ => Raise TypeError
  end.

Definition _extract_city_from_address (address : value) : str :=
  try_except (city_body address) (fun _ => non_specifiee).

(* ===================================================================== *)
(** ** Per-fragment extraction: [_extract_single_business] *)
(* ===================================================================== *)

(** [qBF1Pd\s+fontHeadlineSmall] *)
Definition name_pattern : Re.regex :=
  Re.seq [Re.lit (u"qBF1Pd"); Re.Rep1 Py.is_space;
          Re.lit (u"fontHeadlineSmall")].

(** [\((\d+)\)] *)
Definition reviews_pattern : Re.regex :=
  Re.seq [Re.lit (u"("); Re.Capture (Re.Rep1 Py.is_decimal); Re.lit (u")")].

(** [lcr4fd\s+S9kvJb] *)
Definition website_pattern : Re.regex :=
  Re.seq [Re.lit (u"lcr4fd"); Re.Rep1 Py.is_space; Re.lit (u"S9kvJb")].

Definition address_keywords : list str :=
  [u"rue"; u"avenue"; u"boulevard"; u"place"; u"bd"].

(** [any(keyword in text.lower() for keyword in [...])] *)
Definition has_address_keyword (text : str) : bool :=
  existsb (fun keyword => Py.contains keyword (Py.lower text))
          address_keywords.

(** [float(text.replace(',', '.'))] under its bare [except]. *)
Definition parse_note (text : str) : value :=
  try_except
    (match float_ (Py.replace 44 46 text) with
     | Ok f => Ok (VFloat f)
     | Raise e => Raise e
     end)
    (fun _ => VNone).

(** [int(reviews_match.group(1))]: [TypeError] on a group that is [None],
    [ValueError] above the digit limit. *)
Definition review_count (reviews_match : Re.match_object) : result Z :=
  match Re.group1 reviews_match with
  | Some digits => int_ digits
  | None => Raise TypeError
  end.

(** The rating container: the note and the number of reviews. *)
Definition extract_rating (container : node) (business : dict)
    : result dict :=
  match Bs4.find "span" (Bs4.by_class_re (Re.lit (u"ZkP5Je"))) container with
  | Some rating_container =>
      let business :=
        match Bs4.find "span" (Bs4.by_class (u"MW4etd")) rating_container with
        | Some rating_text =>
            <["note" := parse_note (Bs4.get_text rating_text)]> business
        | None => business
        end in
      match Bs4.find "span" (Bs4.by_class (u"UY7F9")) rating_container with
      | Some reviews_text =>
          match Re.search reviews_pattern (Bs4.get_text reviews_text) with
          | Some reviews_match =>
              count ← review_count reviews_match;
              mret (<["nombre_avis" := VInt count]> business)
          | None => mret business
          end
      | None => mret business
      end
  | None => mret business
  end.

(** The inner [for part in parts] loop with its [break]: the first segment
    that, trimmed, holds an address keyword. *)
Fixpoint first_address_part (parts : list str) : option str :=
  match parts with
  | [] => None
  | part :: rest =>
      let part := Py.strip part in
      if has_address_keyword part then Some part
      else first_address_part rest
  end.

(** One iteration of [for div in info_divs]. *)
Definition address_div (business : dict) (div : node) : dict :=
  let text := Bs4.get_text div in
  if has_address_keyword text then
    if Py.contains [183] text then
      match first_address_part (Py.split 183 text) with
      | Some part =>
          <["ville" := VStr (_extract_city_from_address (VStr part))]>
            (<["adresse" := VStr part]> business)
      | None => business
      end
    else business
  else business.

Definition extract_address (container : node) (business : dict) : dict :=
  foldl address_div business
        (Bs4.find_all "div" (Bs4.by_class (u"W4Efsd")) container).

Definition extract_phone (container : node) (business : dict) : dict :=
  match Bs4.find "span" (Bs4.by_class (u"UsdlK")) container with
  | Some phone_element =>
      <["telephone" := VStr (Bs4.get_text phone_element)]> business
  | None => business
  end.

Definition extract_website (container : node) (business : dict) : dict :=
  match Bs4.find "a" (Bs4.by_class_re website_pattern) container with
  | Some website_link =>
      match Bs4.get "href" website_link with
      | Some href =>
          if Py.truthy href then <["site_web" := VStr href]> business
          else business
      | None => business
      end
  | None => business
  end.

Definition closed_color : str := u"color: rgba(220,54,46".
Definition open_color : str := u"color: rgba(25,134,57".
Definition closing_color : str := u"color: rgba(178,108,0".

(** The colour test of the status loop. *)
Definition status_color (style : str) : bool :=
  Py.contains closed_color style || Py.contains open_color style
  || Py.contains closing_color style.

(** One iteration of [for element in status_elements]. *)
Definition status_element (business : dict) (element : node) : dict :=
  let style := default [] (Bs4.get "style" element) in
  let text := Bs4.get_text element in
  if Py.contains closed_color style && Py.truthy text
  then <["statut_ouverture" := VStr text]> business
  else if Py.contains open_color style && Py.truthy text
  then <["statut_ouverture" := VStr text]> business
  else if Py.contains closing_color style && Py.truthy text
  then <["statut_ouverture" := VStr text]> business
  else business.

Definition status_elements (container : node) : list node :=
  Bs4.find_all "span" (Bs4.by_attr "style") container.

Definition extract_status (container : node) (business : dict) : dict :=
  foldl status_element business (status_elements container).

(** The default fields added before the record is returned. *)
Definition add_defaults (self : HTMLGoogleMapsExtractor) (business : dict)
    : dict :=
  let business := setdefault "note" VNone business in
  let business := setdefault "nombre_avis" (VInt 0) business in
  let business :=
    <["type_entreprise" :=
        VStr (default non_specifie
                      (attr_if_set (default_business_type self)))]>
      business in
  let business := setdefault "adresse" (VStr non_specifiee) business in
  let business := setdefault "ville" (VStr non_specifiee) business in
  let business := setdefault "telephone" (VStr non_specifie) business in
  let business := setdefault "site_web" (VStr non_specifie) business in
  setdefault "statut_ouverture" (VStr non_specifie) business.

(** The fields read from the markup, once the name element is found. *)
Definition extract_fields (container name_element : node) : result dict :=
  let business := <["nom" := VStr (Bs4.get_text name_element)]> ∅ in
  business ← extract_rating container business;
  let business := extract_address container business in
  let business := extract_phone container business in
  let business := extract_website container business in
  mret (extract_status container business).

(** The [try] block of [_extract_single_business]: [None] when there is no
    name element or its text is empty. *)
Definition single_business_body (self : HTMLGoogleMapsExtractor)
    (container : node) : result (option dict) :=
  match Bs4.find "div" (Bs4.by_class_re name_pattern) container with
  | Some name_element =>
      business ← extract_fields container name_element;
      if negb (truthy_value (business !! "nom")) then mret None
      else mret (Some (add_defaults self business))
  | None => mret None
  end.

(** [_extract_single_business]: any exception of the body is caught and
    gives [None]. *)
Definition _extract_single_business (self : HTMLGoogleMapsExtractor)
    (container : node) : option dict :=
  try_except (single_business_body self container) (fun _ => None).

(* ===================================================================== *)
(** ** The batch loop: [extract_businesses_from_html] *)
(* ===================================================================== *)

(** The local variables of the loop. *)
Record extraction : Type := Extraction_ {
  businesses : list dict;
  successful_extractions : Z;
  failed_extractions : Z;
  extraction_errors : list str
}.

Definition extraction_start : extraction :=
  Extraction_ [] 0 0 [].

Definition incomplete : str := u"Données d'entreprise incomplètes".

(** One iteration of [for container in business_containers]. *)
Definition extract_container (self : HTMLGoogleMapsExtractor)
    (st : extraction) (container : node) : extraction :=
  match _extract_single_business self container with
  | Some business_data =>
      if truthy_dict business_data then
        Extraction_ (businesses st ++ [business_data])
                    (successful_extractions st + 1)
                    (failed_extractions st)
                    (extraction_errors st)
      else
        Extraction_ (businesses st) (successful_extractions st)
                    (failed_extractions st + 1)
                    (extraction_errors st ++ [incomplete])
  | None =>
      Extraction_ (businesses st) (successful_extractions st)
                  (failed_extractions st + 1)
                  (extraction_errors st ++ [incomplete])
  end.

(** [soup.find_all('div', class_=re.compile(r'Nv2PK'))] *)
Definition business_containers (soup : node) : list node :=
  Bs4.find_all "div" (Bs4.by_class_re (Re.lit (u"Nv2PK"))) soup.

(** The loop over a list of containers, from a given state. *)
Definition extract_containers (self : HTMLGoogleMapsExtractor)
    (st : extraction) (containers : list node) : extraction :=
  foldl (extract_container self) st containers.

(** The state at the end of the loop over a parsed document. *)
Definition extraction_of (self : HTMLGoogleMapsExtractor) (soup : node)
    : extraction :=
  extract_containers self extraction_start (business_containers soup).

(* ===================================================================== *)
(** ** Delivery: [_get_or_create_ville_option] *)
(* ===================================================================== *)

Definition _get_or_create_ville_option (self : HTMLGoogleMapsExtractor)
    (ville : str) : str :=
  match attr_if_set (default_city self) with
  | Some city => Py.strip city
  | None =>
      if negb (Py.truthy ville) || Py.eqb (Py.strip ville) []
         || Py.eqb ville non_specifiee
      then non_specifiee
      else
        let ville_clean := Py.strip ville in
        if Py.isdigit ville_clean then non_specifiee
        else
          let parts := Py.split_ws ville_clean in
          let ville_clean :=
            match parts with
            | first :: (_ :: _) as rest =>
                if Py.isdigit first then Py.join [32] rest else ville_clean
            | _ => ville_clean
            end in
          Py.title ville_clean
  end.

(** The [Ville] property [send_to_notion] builds for a record:
    [self._get_or_create_ville_option(business_data.get('ville', ...))]. *)
Definition notion_ville (self : HTMLGoogleMapsExtractor) (business : dict)
    : option str :=
  match default (VStr non_specifiee) (business !! "ville") with
  | VStr ville => Some (_get_or_create_ville_option self ville)
  | _ => None
  end.

(* ===================================================================== *)
(** ** The driver: [process_html_file] *)
(* ===================================================================== *)

(** The statistics dictionary; the two early returns leave the last two
    keys out. *)
Record stats : Type := Stats {
  total : Z;
  success : Z;
  errors : Z;
  duplicates : option Z;
  error_details : option (list str)
}.

Section Driver.

(** The collaborators of the extraction core: the file system, the HTML
    parser and the remote workspace, whose state is [W]. *)
Context {W : Type}.
Variable open_read : string → result str.
Variable BeautifulSoup : str → result node.
Variable check_if_company_exists : W → value → bool.
Variable send_to_notion : HTMLGoogleMapsExtractor → W → dict → bool * W.

(** [extract_businesses_from_html]: any exception of the body, the parser's
    included, is caught and yields the empty list. *)
Definition extract_businesses_from_html (self : HTMLGoogleMapsExtractor)
    (html_content : str) : list dict :=
  try_except
    (soup ← BeautifulSoup html_content;
     mret (businesses (extraction_of self soup)))
    (fun _ => []).

(** The counters of the delivery loop. *)
Record delivery : Type := Delivery {
  success_count : Z;
  error_count : Z;
  duplicate_count : Z;
  workspace : W
}.

(** One iteration of [for business in businesses]. *)
Definition deliver (self : HTMLGoogleMapsExtractor) (st : delivery)
    (business : dict) : delivery :=
  let company_name := default (VStr []) (business !! "nom") in
  if check_if_company_exists (workspace st) company_name then
    Delivery (success_count st) (error_count st) (duplicate_count st + 1)
             (workspace st)
  else
    let '(sent, w) := send_to_notion self (workspace st) business in
    if sent
    then Delivery (success_count st + 1) (error_count st)
                  (duplicate_count st) w
    else Delivery (success_count st) (error_count st + 1)
                  (duplicate_count st) w.

Definition process_html_file (w : W) (html_file_path : string)
    (default_city default_business_type : option str) : stats * W :=
  let self := {| default_city := Some default_city;
                 default_business_type := Some default_business_type |} in
  try_except
    (html_content ← open_read html_file_path;
     let businesses := extract_businesses_from_html self html_content in
     match businesses with
     | [] => mret (Stats 0 0 0 None None, w)
     | _ =>
         let st := foldl (deliver self) (Delivery 0 0 0 w) businesses in
         mret (Stats (Z.of_nat (length businesses)) (success_count st)
                     (error_count st) (Some (duplicate_count st)) (Some []),
               workspace st)
     end)
    (fun _ => (Stats 0 0 1 None None, w)).

End Driver.

(* ===================================================================== *)
(** ** Sample listings *)
(* ===================================================================== *)

Definition el (name : string) (classes : list str) (contents : list node)
    : node :=
  Tag name (Some classes) ∅ contents.

Definition styled (style : str) (text : str) : node :=
  Tag "span" None {["style" := style]} [NavigableString text].

Definition name_div (text : str) : node :=
  el "div" [u"qBF1Pd"; u"fontHeadlineSmall"] [NavigableString text].

Definition rating_span (note : str) (reviews : str) : node :=
  el "span" [u"ZkP5Je"]
     [el "span" [u"MW4etd"] [NavigableString note];
      el "span" [u"UY7F9"] [NavigableString reviews]].

Definition info_div (text : str) : node :=
  el "div" [u"W4Efsd"] [NavigableString text].

(** A listing with every marker present. *)
Definition chez_paul : node :=
  el "div" [u"Nv2PK"; u"THOPZb"]
     [name_div (u" Chez Paul ");
      rating_span (u"4,5") (u"(128)");
      info_div (u"Restaurant · 12 Rue de la Paix, 75002 Paris");
      el "span" [u"UsdlK"] [NavigableString (u"01 23 45 67 89")];
      Tag "a" (Some [u"lcr4fd"; u"S9kvJb"])
          {["href" := u"https://chezpaul.example"]} [];
      styled (u"color: rgba(220,54,46,1.00);") (u"Fermé");
      styled (u"color: rgba(25,134,57,1.00);") (u"Ouvert")].

Definition no_override : HTMLGoogleMapsExtractor :=
  {| default_city := None; default_business_type := None |}.

(** The nine fields of a business record. *)
Definition record_fields : list string :=
  ["nom"; "note"; "nombre_avis"; "type_entreprise"; "adresse"; "ville";
   "telephone"; "site_web"; "statut_ouverture"]%string.

(** The text of the name element, when there is one. *)
Definition name_text (container : node) : option str :=
  Bs4.get_text <$> Bs4.find "div" (Bs4.by_class_re name_pattern) container.

(** *** Derived views used to state the properties *)

(** The dictionary the rating step returns when it does not raise (see
    [extract_rating_returns]). *)
Definition rating_fields (container : node) (business : dict) : dict :=
  match Bs4.find "span" (Bs4.by_class_re (Re.lit (u"ZkP5Je"))) container with
  | Some rating_container =>
      let business :=
        match Bs4.find "span" (Bs4.by_class (u"MW4etd")) rating_container with
        | Some rating_text =>
            <["note" := parse_note (Bs4.get_text rating_text)]> business
        | None => business
        end in
      match Bs4.find "span" (Bs4.by_class (u"UY7F9")) rating_container with
      | Some reviews_text =>
          match Re.search reviews_pattern (Bs4.get_text reviews_text) with
          | Some reviews_match =>
              <["nombre_avis" :=
                  VInt (int_of_digits (default [] (Re.group1 reviews_match)))]>
                business
          | None => business
          end
      | None => business
      end
  | None => business
  end.

(** The fields [extract_fields] returns when it does not raise (see
    [extract_fields_returns]). *)
Definition fields_of (container name_element : node) : dict :=
  let business := <["nom" := VStr (Bs4.get_text name_element)]> ∅ in
  let business := rating_fields container business in
  let business := extract_address container business in
  let business := extract_phone container business in
  let business := extract_website container business in
  extract_status container business.

(** The city [city_on_str] returns (see [city_on_str_returns]). *)
Definition city_of_str (address : str) : str :=
  match Re.search city_pattern address with
  | Some m =>
      let city := Py.strip (default [] (Re.group1 m)) in
      Py.strip (Re.sub_empty parasite_pattern city)
  | None =>
      match first_common_city common_cities address with
      | Some city => city
      | None =>
          let parts := Py.split 44 address in
          if (2 <=? length parts)%nat then
            let last_part := Py.strip (default [] (last parts)) in
            let last_part :=
              Py.strip (Re.sub_empty postal_code_pattern last_part) in
            if Py.truthy last_part && (2 <? length last_part)%nat
            then last_part
            else non_specifiee
          else non_specifiee
      end
  end.

(** The colour test alone: the style names one of the three colours. *)
Definition color_match (element : node) : bool :=
  status_color (default [] (Bs4.get "style" element)).

(** The full test of the status loop: a recognised colour and a non-empty
    text. *)
Definition status_match (element : node) : bool :=
  color_match element && Py.truthy (Bs4.get_text element).

(** [container.find_all('div', class_='W4Efsd')] *)
Definition info_divs (container : node) : list node :=
  Bs4.find_all "div" (Bs4.by_class (u"W4Efsd")) container.

(** The two outer tests of the address loop: a keyword and a middle dot. *)
Definition address_candidate (div : node) : bool :=
  has_address_keyword (Bs4.get_text div)
  && Py.contains [183] (Bs4.get_text div).

(** The segment an info element contributes, if any. *)
Definition address_of (div : node) : option str :=
  if address_candidate div
  then first_address_part (Py.split 183 (Bs4.get_text div))
  else None.

(** What a candidate info element writes. *)
Definition write_address (div : node) (business : dict) : dict :=
  let part := default [] (address_of div) in
  <["ville" := VStr (_extract_city_from_address (VStr part))]>
    (<["adresse" := VStr part]> business).

(** The text of the rating value element of a fragment. *)
Definition rating_text (container : node) : option str :=
  rating_container ←
    Bs4.find "span" (Bs4.by_class_re (Re.lit (u"ZkP5Je"))) container;
  Bs4.get_text
    <$> Bs4.find "span" (Bs4.by_class (u"MW4etd")) rating_container.

(** *** The city rules as the specification words them *)






(** *** More sample listings *)

(** Only the name marker. *)
Definition name_only : node :=
  el "div" [u"Nv2PK"] [name_div (u"Le Bistrot")].

(** No name marker. *)
Definition nameless : node :=
  el "div" [u"Nv2PK"] [rating_span (u"3,9") (u"(12)")].

(** A keyword-bearing info line without a middle dot. *)
Definition undotted_address : node :=
  el "div" [u"Nv2PK"]
     [name_div (u"Boulangerie Martin");
      info_div (u"12 Rue de la Paix, 75002 Paris")].




(** A closed-colour status followed by an open-colour span without text. *)
Definition closed_then_blank : node :=
  el "div" [u"Nv2PK"]
     [name_div (u"Garage Durand");
      styled (u"color: rgba(220,54,46,1.00);") (u"Fermé");
      styled (u"color: rgba(25,134,57,1.00);") (u"  ")].

(** A results page with three listings, the second without a name. *)
Definition results_page : node :=
  Tag "[document]" None ∅
      [el "div" [u"m6QErb"] [chez_paul; nameless; name_only]].

(** The extractor as [process_html_file] configures it with a fixed city. *)
Definition nantes_override : HTMLGoogleMapsExtractor :=
  {| default_city := Some (Some (u"Nantes"));
     default_business_type := Some None |}.

(** *** Further views of a fragment *)

(** The text of the reviews element. *)
Definition reviews_text (container : node) : option str :=
  rating_container ←
    Bs4.find "span" (Bs4.by_class_re (Re.lit (u"ZkP5Je"))) container;
  Bs4.get_text
    <$> Bs4.find "span" (Bs4.by_class (u"UY7F9")) rating_container.

(** The digits of the review count: the group of [\((\d+)\)] in the text
    of the reviews element. *)
Definition review_digits (container : node) : option str :=
  text ← reviews_text container;
  reviews_match ← Re.search reviews_pattern text;
  Some (default [] (Re.group1 reviews_match)).

(** The review count has more digits than [int] converts. *)
Definition review_overflow (container : node) : bool :=
  match review_digits container with
  | Some digits => (max_str_digits <? Z.of_nat (length digits))%Z
  | None => false
  end.

(** The text of the phone element. *)
Definition phone_text (container : node) : option str :=
  Bs4.get_text <$> Bs4.find "span" (Bs4.by_class (u"UsdlK")) container.

(** The [href] of the website link, when it is a non-empty string. *)
Definition website_href (container : node) : option str :=
  website_link ← Bs4.find "a" (Bs4.by_class_re website_pattern) container;
  href ← Bs4.get "href" website_link;
  if Py.truthy href then Some href else None.

(** The fixed category, or the placeholder. *)
Definition category (self : HTMLGoogleMapsExtractor) : str :=
  default non_specifie (attr_if_set (default_business_type self)).

(** The extractor as [process_html_file] configures it. *)
Definition configured (default_city default_business_type : option str)
    : HTMLGoogleMapsExtractor :=
  {| default_city := Some default_city;
     default_business_type := Some default_business_type |}.

(* ===================================================================== *)
(** ** Delivery: category, phone and website *)
(* ===================================================================== *)

(** The Notion value [{"select": {"name": ...}}]. *)
Inductive notion_select : Type :=
| Select (name : str).

Definition select_name (s : notion_select) : str :=
  match s with
  | Select name => name
  end.

Definition _get_or_create_business_type_option
    (self : HTMLGoogleMapsExtractor) (business_type : str) : notion_select :=
  let type_value :=
    match attr_if_set (default_business_type self) with
    | Some fixed => Py.strip fixed
    | None =>
        if Py.truthy business_type
           && negb (Py.eqb (Py.strip business_type) [])
        then Py.strip business_type
        else non_specifie
    end in
  Select type_value.

(** The [Type d'entreprise] property [send_to_notion] builds for a
    record. *)
Definition notion_type (self : HTMLGoogleMapsExtractor) (business : dict)
    : option notion_select :=
  match default (VStr non_specifie) (business !! "type_entreprise") with
  | VStr business_type =>
      Some (_get_or_create_business_type_option self business_type)
  | _ => None
  end.

(** [business_data.get(key) if business_data.get(key) != 'Non spécifié'
    else None]: the [phone_number] and [url] properties of the payload,
    with key [telephone] and [site_web]. *)
Definition notion_contact (key : string) (business : dict) : option value :=
  if bool_decide (business !! key ≠ Some (VStr non_specifie))
  then business !! key
  else None.

(* ===================================================================== *)
(** ** The upload front end: [web_interface.py] *)
(* ===================================================================== *)

(** [s.rsplit(sep, 1)] for a one-character separator: the string cut at
    its last separator, or the string alone when it has none. *)
Definition rsplit1 (sep : N) (s : str) : list str :=
  let r := reverse s in
  match Py.drop_while (fun c => negb (c =? sep)) r with
  | [] => [s]
  | _ :: stem =>
      [reverse stem; reverse (Py.take_while (fun c => negb (c =? sep)) r)]
  end.

Definition ALLOWED_EXTENSIONS : list str := [u"html"; u"htm"].

(** [allowed_file]: the index [[1]] is evaluated only when the name holds
    a dot, so it always exists. *)
Definition allowed_file (filename : str) : bool :=
  Py.contains [46] filename
  && match rsplit1 46 filename !! 1%nat with
     | Some extension =>
         bool_decide (Py.lower extension ∈ ALLOWED_EXTENSIONS)
     | None => false
     end.

(** The fixed city [upload_file] hands to [process_html_file]:
    [request.form.get('default_city', '').strip()], or [None] when that is
    empty. *)
Definition form_default (field : str) : option str :=
  let default_value := Py.strip field in
  if Py.truthy default_value then Some default_value else None.

(* ===================================================================== *)
(** * Properties *)
(* ===================================================================== *)

(** ** Dictionaries *)

Lemma lookup_setdefault (k k' : string) (v : value) (d : dict) :
  setdefault k v d !! k' =
  if decide (k = k') then Some (default v (d !! k)) else d !! k'.
Proof.
  unfold setdefault. destruct (d !! k) as [x|] eqn:E; case_decide; subst;
    simplify_map_eq; done.
Qed.

Lemma lookup_setdefault_eq (k : string) (v : value) (d : dict) :
  setdefault k v d !! k = Some (default v (d !! k)).
Proof. rewrite lookup_setdefault. by rewrite decide_True. Qed.

Lemma lookup_setdefault_ne (k k' : string) (v : value) (d : dict) :
  k ≠ k' → setdefault k v d !! k' = d !! k'.
Proof. intros. rewrite lookup_setdefault. by rewrite decide_False. Qed.

Lemma foldl_lookup_other {A : Type} (f : dict → A → dict) (k : string)
    (l : list A) (b : dict) :
  (∀ b x, f b x !! k = b !! k) → foldl f b l !! k = b !! k.
Proof.
  intros Hf. revert b. induction l as [|x l IH]; intros b; simpl; [done|].
  by rewrite IH, Hf.
Qed.

(** ** What a match of the city and of the reviews pattern looks like *)

(** Greedy repetition consumes characters of the class only. *)
Lemma star_sound {A : Type} (p : N → bool) (s : str) (prev : option N)
    (g : option str) (k : Re.kont A) (r : A) :
  Re.star p prev s g k = Some r →
  ∃ taken rest prev',
    s = taken ++ rest ∧ Forall (fun c => p c = true) taken
    ∧ k prev' rest g = Some r.
Proof.
  revert prev. induction s as [|c s IH]; intros prev H; simpl in H.
  - by exists [], [], prev.
  - destruct (p c) eqn:Hp; [|by exists [], (c :: s), prev].
    destruct (Re.star p (Some c) s g k) as [r'|] eqn:Hs.
    + injection H as ->.
      destruct (IH _ Hs) as (taken & rest & prev' & -> & Ht & Hk).
      exists (c :: taken), rest, prev'. repeat split; [|done].
      by constructor.
    + by exists [], (c :: s), prev.
Qed.

(** Before a continuation that cannot fail, it consumes the whole run. *)
Lemma star_greedy {A : Type} (p : N → bool) (s : str) (prev : option N)
    (g : option str) (k : Re.kont A) :
  (∀ prev' rest, is_Some (k prev' rest g)) →
  ∃ prev', Re.star p prev s g k = k prev' (Py.drop_while p s) g.
Proof.
  intros Hk. revert prev. induction s as [|c s IH]; intros prev; simpl.
  - by exists prev.
  - destruct (p c) eqn:Hp; [|by exists prev].
    destruct (IH (Some c)) as (prev' & ->).
    exists prev'. by destruct (Hk prev' (Py.drop_while p s)) as [r ->].
Qed.

Lemma take_drop_while (p : N → bool) (s : str) :
  s = Py.take_while p s ++ Py.drop_while p s
  ∧ Forall (fun c => p c = true) (Py.take_while p s)
  ∧ from_option p false (head (Py.drop_while p s)) = false.
Proof.
  induction s as [|c s (IH1 & IH2 & IH3)]; simpl; [done|].
  destruct (p c) eqn:Hp; simpl; [|by rewrite Hp].
  repeat split; [by rewrite <- IH1|by constructor|done].
Qed.

Lemma take_app_minus {A : Type} (l r : list A) :
  take (length (l ++ r) - length r) (l ++ r) = l.
Proof.
  rewrite length_app.
  replace (length l + length r - length r)%nat with (length l) by lia.
  by rewrite take_app_length.
Qed.

(** What a match of the city pattern at a position looks like: five
    digits at a word boundary, whitespace, and the longest run of city
    characters that starts with a capital. *)
Lemma city_match_shape (prev : option N) (s : str) (m : Re.match_object) :
  Re.match_at city_pattern prev s = Some m →
  ∃ code ws initial run post,
    s = code ++ ws ++ initial :: run ++ post
    ∧ length code = 5%nat
    ∧ Forall (fun c => Py.is_decimal c = true) code
    ∧ ws ≠ [] ∧ Forall (fun c => Py.is_space c = true) ws
    ∧ city_initial initial = true
    ∧ run ≠ [] ∧ Forall (fun c => city_char c = true) run
    ∧ from_option city_char false (head post) = false
    ∧ Re.group1 m = Some (initial :: run)
    ∧ Re.at_boundary prev s = true.
Proof.
  unfold Re.match_at, city_pattern, Re.seq. cbn [foldr Re.run].
  intros H.
  destruct (Re.at_boundary prev s) eqn:Hb; [|done].
  destruct s as [|d1 s]; [done|]. destruct (Py.is_decimal d1) eqn:H1; [|done].
  destruct s as [|d2 s]; [done|]. destruct (Py.is_decimal d2) eqn:H2; [|done].
  destruct s as [|d3 s]; [done|]. destruct (Py.is_decimal d3) eqn:H3; [|done].
  destruct s as [|d4 s]; [done|]. destruct (Py.is_decimal d4) eqn:H4; [|done].
  destruct s as [|d5 s]; [done|]. destruct (Py.is_decimal d5) eqn:H5; [|done].
  destruct s as [|w s]; [done|]. destruct (Py.is_space w) eqn:Hw; [|done].
  apply star_sound in H as (ws & rest & prev1 & -> & Hws & H).
  cbn [Re.run] in H.
  destruct rest as [|c rest]; [done|].
  destruct (city_initial c) eqn:Hc; [|done].
  destruct rest as [|x rest]; [done|].
  destruct (city_char x) eqn:Hx; [|done].
  match type of H with
  | Re.star _ _ _ _ ?k = _ =>
      destruct (star_greedy city_char rest (Some x) None k) as (prev2 & Hg);
        [by eexists|]
  end.
  rewrite Hg in H. injection H as <-.
  destruct (take_drop_while city_char rest) as (Hrest & Hrun & Hpost).
  set (run := Py.take_while city_char rest) in *.
  set (post := Py.drop_while city_char rest) in *.
  clearbody run post. subst rest.
  exists [d1; d2; d3; d4; d5], (w :: ws), c, (x :: run), post.
  repeat split; try done.
  - by repeat constructor.
  - by constructor.
  - by constructor.
  - cbn [Re.group1]. f_equal. apply (take_app_minus (c :: x :: run) post).
Qed.

(** [re.search] finds its match at some position of the string. *)
Lemma search_from_sound (r : Re.regex) (s : str) (prev : option N)
    (m : Re.match_object) :
  Re.search_from r prev s = Some m →
  ∃ before rest,
    s = before ++ rest
    ∧ Re.match_at r (from_option Some prev (last before)) rest = Some m.
Proof.
  revert prev. induction s as [|c s IH]; intros prev H; simpl in H.
  - destruct (Re.match_at r prev []) eqn:Hm; [|done].
    injection H as ->. by exists [], [].
  - destruct (Re.match_at r prev (c :: s)) eqn:Hm.
    + injection H as ->. by exists [], (c :: s).
    + destruct (IH _ H) as (before & rest & -> & Hr).
      exists (c :: before), rest. split; [done|].
      destruct before as [|b before]; [done|].
      change (last (c :: b :: before)) with (last (b :: before)).
      destruct (last (b :: before)) eqn:E; [done|].
      by apply last_None in E.
Qed.

(** A match of the reviews pattern: a non-empty run of digits between
    parentheses. *)
Lemma reviews_match_shape (prev : option N) (s : str)
    (m : Re.match_object) :
  Re.match_at reviews_pattern prev s = Some m →
  ∃ digits post,
    s = 40 :: digits ++ 41 :: post
    ∧ digits ≠ [] ∧ Forall (fun c => Py.is_decimal c = true) digits
    ∧ Re.group1 m = Some digits.
Proof.
  unfold Re.match_at, reviews_pattern, Re.seq, Re.lit, Re.seq.
  change (u"(") with [40]. change (u")") with [41].
  cbn [foldr map Re.run]. intros H.
  destruct s as [|c s]; [done|].
  destruct (N.eqb_spec 40 c) as [<-|]; [|done].
  destruct s as [|d s]; [done|].
  destruct (Py.is_decimal d) eqn:Hd; [|done].
  apply star_sound in H as (taken & rest & prev' & -> & Ht & H).
  destruct rest as [|e rest]; [done|].
  destruct (N.eqb_spec 41 e) as [<-|]; [|done].
  injection H as <-.
  exists (d :: taken), rest. repeat split; [done|by constructor|].
  cbn [Re.group1]. f_equal.
  apply (take_app_minus (d :: taken) (41 :: rest)).
Qed.

(** ** Which steps can raise *)

(** The group of a reviews match is always set: the conversion of the
    review count raises only above the digit limit. *)
Lemma review_count_returns (text : str) (m : Re.match_object) :
  Re.search reviews_pattern text = Some m →
  ∃ digits, Re.group1 m = Some digits ∧ review_count m = int_ digits.
Proof.
  intros Hm. apply search_from_sound in Hm as (before & rest & _ & Hm).
  apply reviews_match_shape in Hm as (digits & post & _ & _ & _ & Hg).
  exists digits. split; [done|]. unfold review_count. by rewrite Hg.
Qed.

Lemma extract_rating_returns (c : node) (b : dict) :
  extract_rating c b =
  if review_overflow c then Raise ValueError else Ok (rating_fields c b).
Proof.
  unfold extract_rating, rating_fields, review_overflow, review_digits,
    reviews_text.
  destruct (Bs4.find "span" (Bs4.by_class_re _) c) as [rc|]; simpl; [|done].
  destruct (Bs4.find "span" (Bs4.by_class (u"UY7F9")) rc) as [rt|]; simpl;
    [|done].
  destruct (Re.search reviews_pattern _) as [m|] eqn:Hm; simpl; [|done].
  destruct (review_count_returns _ _ Hm) as (digits & Hg & ->).
  rewrite Hg. simpl. unfold int_.
  by destruct (max_str_digits <? Z.of_nat (length digits))%Z.
Qed.

Lemma review_overflow_digits (c : node) :
  review_overflow c = true ↔
  ∃ digits, review_digits c = Some digits ∧ (4300 < length digits)%nat.
Proof.
  unfold review_overflow, max_str_digits.
  destruct (review_digits c) as [digits|].
  - rewrite Z.ltb_lt. split.
    + intros H. exists digits. split; [done|]. lia.
    + intros (digits' & [= <-] & H). lia.
  - split; [done|]. by intros (digits & ? & _).
Qed.

Lemma extract_fields_returns (c ne : node) :
  extract_fields c ne =
  if review_overflow c then Raise ValueError else Ok (fields_of c ne).
Proof.
  unfold extract_fields, fields_of. cbv zeta.
  rewrite extract_rating_returns. by destruct (review_overflow c).
Qed.

(** The body of city inference does not raise on a string: the group of
    a city match is always set, and a split has a last segment. *)
Lemma city_on_str_returns (address : str) :
  city_on_str address = Ok (city_of_str address).
Proof.
  unfold city_on_str, city_of_str.
  destruct (Re.search city_pattern address) as [m|] eqn:Hm.
  - apply search_from_sound in Hm as (before & rest & _ & Hm).
    apply city_match_shape in Hm
      as (code & ws & initial & run & post & _ & _ & _ & _ & _ & _ & _
          & _ & _ & Hg & _).
    unfold group1_strip. by rewrite Hg.
  - destruct (first_common_city common_cities address); [done|].
    cbv zeta.
    destruct (2 <=? length (Py.split 44 address))%nat eqn:Hlen; [|done].
    unfold last_item.
    destruct (last (Py.split 44 address)) as [part|] eqn:Hlast.
    + simpl. by destruct (_ && _).
    + apply last_None in Hlast. by rewrite Hlast in Hlen.
Qed.

Lemma extract_city_of_str (address : str) :
  _extract_city_from_address (VStr address) = city_of_str address.
Proof.
  unfold _extract_city_from_address, city_body.
  by rewrite city_on_str_returns.
Qed.

(** ** Which keys each extraction step writes *)

Lemma rating_fields_other (c : node) (b : dict) (k : string) :
  k ≠ "note"%string → k ≠ "nombre_avis"%string →
  rating_fields c b !! k = b !! k.
Proof.
  intros H1 H2. unfold rating_fields.
  repeat case_match; simplify_map_eq; done.
Qed.

Lemma address_div_other (b : dict) (div : node) (k : string) :
  k ≠ "adresse"%string → k ≠ "ville"%string →
  address_div b div !! k = b !! k.
Proof.
  intros H1 H2. unfold address_div.
  repeat case_match; simplify_map_eq; done.
Qed.

Lemma extract_address_other (c : node) (b : dict) (k : string) :
  k ≠ "adresse"%string → k ≠ "ville"%string →
  extract_address c b !! k = b !! k.
Proof.
  intros H1 H2. apply foldl_lookup_other.
  intros; by apply address_div_other.
Qed.

Lemma extract_phone_other (c : node) (b : dict) (k : string) :
  k ≠ "telephone"%string → extract_phone c b !! k = b !! k.
Proof.
  intros H1. unfold extract_phone. repeat case_match; simplify_map_eq; done.
Qed.

Lemma extract_website_other (c : node) (b : dict) (k : string) :
  k ≠ "site_web"%string → extract_website c b !! k = b !! k.
Proof.
  intros H1. unfold extract_website.
  repeat case_match; simplify_map_eq; done.
Qed.

Lemma status_element_other (b : dict) (e : node) (k : string) :
  k ≠ "statut_ouverture"%string → status_element b e !! k = b !! k.
Proof.
  intros H1. unfold status_element.
  repeat case_match; simplify_map_eq; done.
Qed.

Lemma extract_status_other (c : node) (b : dict) (k : string) :
  k ≠ "statut_ouverture"%string → extract_status c b !! k = b !! k.
Proof.
  intros H1. apply foldl_lookup_other.
  intros; by apply status_element_other.
Qed.

Lemma fields_of_nom (c ne : node) :
  fields_of c ne !! "nom" = Some (VStr (Bs4.get_text ne)).
Proof.
  unfold fields_of.
  rewrite extract_status_other, extract_website_other, extract_phone_other,
    extract_address_other, rating_fields_other by done.
  by simplify_map_eq.
Qed.

(** Closed decidable goals are settled by evaluation. *)
Ltac by_evaluation := apply (bool_decide_unpack _); vm_compute; exact I.

(** Membership in an explicit list. *)
Ltac in_list :=
  repeat first [ apply list_elem_of_here | apply list_elem_of_further ].

(** Peel the layers of [add_defaults] that write another key. *)
Ltac peel_defaults :=
  repeat first [ rewrite lookup_setdefault_ne by done
               | rewrite lookup_insert_ne by done ].

Lemma add_defaults_default (self : HTMLGoogleMapsExtractor) (b : dict)
    (k : string) (v : value) :
  (k, v) ∈ [("note", VNone); ("nombre_avis", VInt 0);
            ("adresse", VStr non_specifiee); ("ville", VStr non_specifiee);
            ("telephone", VStr non_specifie); ("site_web", VStr non_specifie);
            ("statut_ouverture", VStr non_specifie)]%string →
  add_defaults self b !! k = Some (default v (b !! k)).
Proof.
  intros Hk. unfold add_defaults. cbv zeta.
  repeat (apply elem_of_cons in Hk as [[= -> ->]|Hk]);
    try (by inversion Hk);
    peel_defaults; rewrite lookup_setdefault_eq; by peel_defaults.
Qed.

Lemma add_defaults_type (self : HTMLGoogleMapsExtractor) (b : dict) :
  add_defaults self b !! "type_entreprise" =
  Some (VStr (default non_specifie
                      (attr_if_set (default_business_type self)))).
Proof.
  unfold add_defaults. cbv zeta. peel_defaults. by rewrite lookup_insert_eq.
Qed.

Lemma add_defaults_nom (self : HTMLGoogleMapsExtractor) (b : dict) :
  add_defaults self b !! "nom" = b !! "nom".
Proof. unfold add_defaults. cbv zeta. by peel_defaults. Qed.

Lemma add_defaults_present (self : HTMLGoogleMapsExtractor) (b : dict)
    (k : string) :
  k ∈ record_fields → is_Some (b !! "nom") →
  is_Some (add_defaults self b !! k).
Proof.
  intros Hk Hnom. unfold record_fields in Hk.
  repeat (apply elem_of_cons in Hk as [->|Hk]); try (by inversion Hk);
    first [ by rewrite add_defaults_nom
          | rewrite add_defaults_type; by eexists
          | eexists; apply add_defaults_default; in_list ].
Qed.

(** The record is produced exactly when the name element exists and its
    trimmed text is not empty. *)
Lemma single_business_spec (self : HTMLGoogleMapsExtractor) (c : node) :
  _extract_single_business self c =
  match Bs4.find "div" (Bs4.by_class_re name_pattern) c with
  | Some ne =>
      if Py.truthy (Bs4.get_text ne)
      then (if review_overflow c then None
            else Some (add_defaults self (fields_of c ne)))
      else None
  | None => None
  end.
Proof.
  unfold _extract_single_business, single_business_body.
  destruct (Bs4.find _ _ c) as [ne|]; [|done].
  rewrite extract_fields_returns.
  destruct (review_overflow c); simpl.
  - by destruct (Py.truthy _).
  - rewrite fields_of_nom. simpl. by destruct (Py.truthy _).
Qed.

Lemma truthy_nonempty (s : str) : Py.truthy s = true ↔ s ≠ [].
Proof.
  unfold Py.truthy. rewrite negb_true_iff, bool_decide_eq_false. done.
Qed.

(** C1. Every record returned by [_extract_single_business] holds all nine
    fields and a non-empty name; a fragment whose name element is missing,
    or whose name text is empty, yields no record. *)
Theorem record_has_nine_fields_and_name
    (self : HTMLGoogleMapsExtractor) (container : node) :
  (∀ business,
      _extract_single_business self container = Some business →
      (∀ k, k ∈ record_fields → is_Some (business !! k))
      ∧ ∃ name, name_text container = Some name ∧ name ≠ []
                ∧ business !! "nom" = Some (VStr name))
  ∧ (name_text container = None ∨ name_text container = Some [] →
     _extract_single_business self container = None).
Proof.
  rewrite single_business_spec. unfold name_text.
  destruct (Bs4.find _ _ container) as [ne|]; simpl; [|by split].
  destruct (Py.truthy (Bs4.get_text ne)) eqn:Ht.
  - split.
    + intros business H.
      destruct (review_overflow container); [done|]. injection H as <-.
      assert (is_Some (fields_of container ne !! "nom")) as Hnom
        by (rewrite fields_of_nom; eauto).
      split.
      * intros k Hk. by apply add_defaults_present.
      * exists (Bs4.get_text ne). split; [done|]. split.
        -- by apply truthy_nonempty.
        -- rewrite add_defaults_nom. apply fields_of_nom.
    + intros [H|H]; [done|]. injection H as H.
      apply truthy_nonempty in Ht. by destruct Ht.
  - by split.
Qed.

(** ** The batch loop *)

Lemma record_truthy (self : HTMLGoogleMapsExtractor) (c : node) (b : dict) :
  _extract_single_business self c = Some b → truthy_dict b = true.
Proof.
  rewrite single_business_spec. intros H.
  destruct (Bs4.find _ _ c) as [ne|]; [|done].
  destruct (Py.truthy _); [|done].
  destruct (review_overflow _); [done|]. injection H as <-.
  unfold truthy_dict. apply negb_true_iff, bool_decide_eq_false.
  intros Hempty.
  assert (is_Some (add_defaults self (fields_of c ne) !! "nom")) as Hs.
  { rewrite add_defaults_nom, fields_of_nom; eauto. }
  rewrite Hempty, lookup_empty in Hs. by destruct Hs.
Qed.

(** A fragment adds its record and one success, or one failure. *)
Lemma extract_container_spec (self : HTMLGoogleMapsExtractor)
    (st : extraction) (c : node) :
  extract_container self st c =
  match _extract_single_business self c with
  | Some b =>
      Extraction_ (businesses st ++ [b]) (successful_extractions st + 1)
                  (failed_extractions st) (extraction_errors st)
  | None =>
      Extraction_ (businesses st) (successful_extractions st)
                  (failed_extractions st + 1)
                  (extraction_errors st ++ [incomplete])
  end.
Proof.
  unfold extract_container.
  destruct (_extract_single_business self c) as [b|] eqn:E; [|done].
  by rewrite (record_truthy _ _ _ E).
Qed.

(** The loop from any state adds to it what the loop from the start state
    collects: fragments are processed independently of one another. *)
Lemma extract_containers_from (self : HTMLGoogleMapsExtractor)
    (l : list node) (st : extraction) :
  let r := extract_containers self extraction_start l in
  let r' := extract_containers self st l in
  businesses r' = businesses st ++ businesses r
  ∧ successful_extractions r' =
      (successful_extractions st + successful_extractions r)%Z
  ∧ failed_extractions r' =
      (failed_extractions st + failed_extractions r)%Z
  ∧ extraction_errors r' = extraction_errors st ++ extraction_errors r.
Proof.
  cbv zeta. revert st. induction l as [|c l IH] using rev_ind; intros st.
  - simpl. rewrite !app_nil_r. repeat split; lia.
  - unfold extract_containers in *. rewrite !foldl_app. simpl.
    rewrite !extract_container_spec.
    destruct (IH st) as (Hb & Hs & Hf & He).
    destruct (_extract_single_business self c) as [b|]; simpl;
      rewrite ?Hb, ?Hs, ?Hf, ?He, <- ?app_assoc; repeat split; lia.
Qed.

(** The records are those of the fragments that yield one, in document
    order, and every fragment is counted once. *)
Lemma extract_containers_start (self : HTMLGoogleMapsExtractor)
    (l : list node) :
  let r := extract_containers self extraction_start l in
  businesses r = omap (_extract_single_business self) l
  ∧ successful_extractions r = Z.of_nat (length (businesses r))
  ∧ (successful_extractions r + failed_extractions r)%Z
    = Z.of_nat (length l)
  ∧ length (extraction_errors r) = Z.to_nat (failed_extractions r)
  ∧ (0 <= failed_extractions r)%Z.
Proof.
  cbv zeta. induction l as [|c l IH] using rev_ind.
  - simpl. repeat split; lia.
  - unfold extract_containers in *. rewrite foldl_app. simpl.
    rewrite extract_container_spec, omap_app. simpl.
    destruct IH as (Hb & Hs & Ht & He & Hf).
    destruct (_extract_single_business self c) as [b|]; simpl;
      rewrite ?Hb, ?app_nil_r, ?length_app in *; simpl;
      repeat split; try lia.
Qed.

(** C2. A fragment without a name marker yields no record and exactly one
    more failure (with one failure reason), and the fragments before and
    after it are processed as they would be without it. *)
Theorem missing_name_counts_one_failure
    (self : HTMLGoogleMapsExtractor) (soup : node)
    (before after : list node) (container : node) :
  business_containers soup = before ++ container :: after →
  Bs4.find "div" (Bs4.by_class_re name_pattern) container = None →
  let st := extract_containers self extraction_start before in
  let st' := extract_container self st container in
  let rest := extract_containers self extraction_start after in
  let final := extraction_of self soup in
  _extract_single_business self container = None
  ∧ businesses st' = businesses st
  ∧ successful_extractions st' = successful_extractions st
  ∧ failed_extractions st' = (failed_extractions st + 1)%Z
  ∧ extraction_errors st' = extraction_errors st ++ [incomplete]
  ∧ final = extract_containers self st' after
  ∧ businesses final =
      omap (_extract_single_business self) before
      ++ omap (_extract_single_business self) after
  ∧ failed_extractions final =
      (failed_extractions st + 1 + failed_extractions rest)%Z
  ∧ (successful_extractions final + failed_extractions final)%Z =
      Z.of_nat (length (business_containers soup)).
Proof.
  intros Hsoup Hname. cbv zeta.
  assert (_extract_single_business self container = None) as Hnone.
  { rewrite single_business_spec. by rewrite Hname. }
  rewrite extract_container_spec, Hnone. simpl.
  do 5 (split; [done|]).
  unfold extraction_of.
  destruct (extract_containers_start self (business_containers soup))
    as (Hb & _ & Ht & _).
  split; [|split; [|split; [|exact Ht]]].
  - rewrite Hsoup. unfold extract_containers. rewrite foldl_app. simpl.
    by rewrite extract_container_spec, Hnone.
  - rewrite Hb, Hsoup, omap_app. simpl. by rewrite Hnone.
  - rewrite Hsoup. unfold extract_containers at 1. rewrite foldl_app. simpl.
    rewrite extract_container_spec, Hnone.
    match goal with
    | |- failed_extractions (foldl _ ?s _) = _ =>
        destruct (extract_containers_from self after s) as (_ & _ & Hf & _)
    end.
    unfold extract_containers in *. by rewrite Hf.
Qed.

(** ** Loops whose later iterations overwrite earlier ones *)

(** After a loop that writes key [k] at every element passing [p], the key
    holds what the last such element wrote. *)
Lemma foldl_last_write {A : Type} (p : A → bool) (w : A → dict → dict)
    (h : A → value) (k : string) (l : list A) (b : dict) :
  (∀ x b, w x b !! k = Some (h x)) →
  foldl (fun b x => if p x then w x b else b) b l !! k =
  match last (filter (fun x => p x = true) l) with
  | Some x => Some (h x)
  | None => b !! k
  end.
Proof.
  intros Hw. induction l as [|x l IH] using rev_ind; [done|].
  rewrite foldl_app, filter_app. simpl.
  rewrite filter_cons, filter_nil.
  destruct (p x) eqn:Hp.
  - rewrite decide_True by done. by rewrite last_snoc, Hw.
  - rewrite decide_False by done. by rewrite app_nil_r.
Qed.

(** A loop none of whose elements passes the test leaves the dictionary as
    it was. *)
Lemma foldl_no_write {A : Type} (p : A → bool) (w : A → dict → dict)
    (l : list A) (b : dict) :
  filter (fun x => p x = true) l = [] →
  foldl (fun b x => if p x then w x b else b) b l = b.
Proof.
  revert b. induction l as [|x l IH]; intros b Hf; [done|].
  rewrite filter_cons in Hf. simpl. destruct (p x) eqn:Hp.
  - by rewrite decide_True in Hf.
  - rewrite decide_False in Hf by done. by apply IH.
Qed.

Lemma foldl_ext_dict {A : Type} (f g : dict → A → dict) (l : list A)
    (b : dict) :
  (∀ b x, f b x = g b x) → foldl f b l = foldl g b l.
Proof.
  intros H. revert b. induction l as [|x l IH]; intros b; simpl; [done|].
  by rewrite H, IH.
Qed.

(** ** Open status *)

Lemma status_element_spec (b : dict) (e : node) :
  status_element b e =
  if status_match e
  then <["statut_ouverture" := VStr (Bs4.get_text e)]> b
  else b.
Proof.
  unfold status_element, status_match, color_match, status_color.
  destruct (Py.contains closed_color _), (Py.contains open_color _),
    (Py.contains closing_color _), (Py.truthy _); reflexivity.
Qed.

Lemma extract_status_last (c : node) (b : dict) :
  extract_status c b !! "statut_ouverture" =
  match last (filter (fun e => status_match e = true) (status_elements c))
  with
  | Some e => Some (VStr (Bs4.get_text e))
  | None => b !! "statut_ouverture"
  end.
Proof.
  unfold extract_status.
  rewrite (foldl_ext_dict _
    (fun b e => if status_match e
                then <["statut_ouverture" := VStr (Bs4.get_text e)]> b
                else b)) by apply status_element_spec.
  apply (foldl_last_write status_match
           (fun e b => <["statut_ouverture" := VStr (Bs4.get_text e)]> b)
           (fun e => VStr (Bs4.get_text e))).
  intros. by simplify_map_eq.
Qed.

Lemma fields_of_before_status (c ne : node) (k : string) :
  k ≠ "nom"%string → k ≠ "note"%string → k ≠ "nombre_avis"%string →
  k ≠ "adresse"%string → k ≠ "ville"%string → k ≠ "telephone"%string →
  k ≠ "site_web"%string →
  extract_website c
    (extract_phone c
       (extract_address c
          (rating_fields c (<["nom" := VStr (Bs4.get_text ne)]> ∅))))
  !! k = None.
Proof.
  intros. rewrite extract_website_other, extract_phone_other,
    extract_address_other, rating_fields_other by done.
  by simplify_map_eq.
Qed.

(** C9 (as amended). The open status of a record is the text of the last
    styled span, in document order, that has both a recognised colour and
    a non-empty text; without such a span it is the placeholder. *)
Theorem status_is_last_nonempty_match
    (self : HTMLGoogleMapsExtractor) (container : node) (business : dict) :
  _extract_single_business self container = Some business →
  business !! "statut_ouverture" =
  Some (VStr
    (match last (filter (fun e => status_match e = true)
                        (status_elements container)) with
     | Some element => Bs4.get_text element
     | None => non_specifie
     end)).
Proof.
  rewrite single_business_spec. intros H.
  destruct (Bs4.find _ _ container) as [ne|]; [|done].
  destruct (Py.truthy _); [|done].
  destruct (review_overflow _); [done|]. injection H as <-.
  rewrite (add_defaults_default self _ "statut_ouverture"
             (VStr non_specifie)) by in_list.
  unfold fields_of. cbv zeta.
  rewrite extract_status_last.
  destruct (last _) as [e|]; [done|].
  by rewrite fields_of_before_status.
Qed.

Lemma status_is_last_nonempty_match_witness :
  ∃ business,
    _extract_single_business no_override closed_then_blank = Some business
    ∧ business !! "statut_ouverture" = Some (VStr (u"Fermé")).
Proof.
  assert (is_Some (_extract_single_business no_override closed_then_blank))
    as [business E] by by_evaluation.
  exists business. split; [done|].
  rewrite (status_is_last_nonempty_match no_override closed_then_blank
             business E).
  by_evaluation.
Defined.

(** C9 (as stated) fails: the last span with a recognised colour has no
    text, and the status is the text of an earlier span. *)
Lemma status_last_color_counterexample :
  Bs4.get_text <$> last (filter (fun e => color_match e = true)
                                (status_elements closed_then_blank))
  = Some []
  ∧ _extract_single_business no_override closed_then_blank
      ≫= (fun business => business !! "statut_ouverture")
    = Some (VStr (u"Fermé")).
Proof. split; by_evaluation. Qed.

(** ** Facts on strings *)

Lemma starts_with_sep (kw a b : str) (sep : N) :
  sep ∉ kw → Py.starts_with kw (a ++ sep :: b) = true →
  Py.starts_with kw a = true.
Proof.
  revert a. induction kw as [|c kw IH]; intros a Hsep H; [by destruct a|].
  apply not_elem_of_cons in Hsep as [Hc Hkw].
  destruct a as [|x a]; simpl in *.
  - apply andb_true_iff in H as [H _]. apply N.eqb_eq in H. done.
  - apply andb_true_iff in H as [H1 H2]. rewrite H1. simpl. by apply IH.
Qed.

Lemma contains_nil_false (kw : str) :
  kw ≠ [] → Py.contains kw [] = false.
Proof. by destruct kw. Qed.

(** A substring without the separator lies on one side of it. *)
Lemma contains_sep (kw a b : str) (sep : N) :
  sep ∉ kw → Py.contains kw (a ++ sep :: b) = true →
  Py.contains kw a = true ∨ Py.contains kw b = true.
Proof.
  intros Hsep. induction a as [|x a IH]; simpl; intros H.
  - apply orb_true_iff in H as [H|H]; [|by right].
    left. apply (starts_with_sep kw [] b sep Hsep) in H.
    destruct kw; [done|discriminate].
  - apply orb_true_iff in H as [H|H].
    + left. apply (starts_with_sep kw (x :: a) b sep Hsep) in H.
      simpl in H. by rewrite H.
    + destruct (IH H) as [H'|H']; [left|by right].
      rewrite H'. apply orb_true_r.
Qed.

Lemma contains_skip_prefix (kw ws t : str) :
  kw ≠ [] → Forall (fun c => c ∉ kw) ws →
  Py.contains kw (ws ++ t) = true → Py.contains kw t = true.
Proof.
  intros Hkw Hws. induction Hws as [|c ws Hc _ IH]; [done|].
  intros H. apply (contains_sep kw [] (ws ++ t) c Hc) in H as [H|H].
  - by rewrite contains_nil_false in H.
  - by apply IH.
Qed.

Lemma contains_skip_suffix (kw ws t : str) :
  kw ≠ [] → Forall (fun c => c ∉ kw) ws →
  Py.contains kw (t ++ ws) = true → Py.contains kw t = true.
Proof.
  intros Hkw Hws H. destruct ws as [|c ws]; [by rewrite app_nil_r in H|].
  apply Forall_cons in Hws as [Hc Hws].
  apply (contains_sep kw t ws c Hc) in H as [H|H]; [done|].
  rewrite <- (app_nil_r ws) in H.
  apply contains_skip_prefix in H; [|done..].
  by rewrite contains_nil_false in H.
Qed.

Lemma lstrip_decompose (s : str) :
  ∃ ws, s = ws ++ Py.lstrip s ∧ Forall (fun c => Py.is_space c = true) ws.
Proof.
  induction s as [|c s (ws & Hs & Hws)]; [by exists []|].
  simpl. destruct (Py.is_space c) eqn:Hc.
  - exists (c :: ws). split; [by rewrite Hs at 1|by constructor].
  - by exists [].
Qed.

Lemma strip_decompose (s : str) :
  ∃ ws1 ws2, s = ws1 ++ Py.strip s ++ ws2
    ∧ Forall (fun c => Py.is_space c = true) ws1
    ∧ Forall (fun c => Py.is_space c = true) ws2.
Proof.
  destruct (lstrip_decompose s) as (ws1 & Hs & H1).
  destruct (lstrip_decompose (reverse (Py.lstrip s))) as (ws2 & Hr & H2).
  exists ws1, (reverse ws2). repeat split; [|done|by apply Forall_reverse].
  unfold Py.strip, Py.rstrip. rewrite <- reverse_app, <- Hr.
  by rewrite reverse_involutive.
Qed.

Lemma split_nonempty (sep : N) (s : str) : Py.split sep s ≠ [].
Proof.
  destruct s as [|c s]; [done|]. simpl.
  destruct (c =? sep); [done|]. by destruct (Py.split sep s).
Qed.

Lemma join_split (sep : N) (s : str) :
  Py.join [sep] (Py.split sep s) = s.
Proof.
  induction s as [|c s IH]; [done|]. simpl.
  pose proof (split_nonempty sep s) as Hne.
  destruct (Py.split sep s) as [|w ws] eqn:E; [done|].
  destruct (c =? sep) eqn:Hc.
  - apply N.eqb_eq in Hc as ->. simpl in *. by rewrite IH.
  - destruct ws; simpl in *; by rewrite <- IH.
Qed.

Lemma contains_join (kw : str) (sep : N) (segs : list str) :
  kw ≠ [] → sep ∉ kw →
  Py.contains kw (Py.join [sep] segs) = true →
  ∃ seg, seg ∈ segs ∧ Py.contains kw seg = true.
Proof.
  intros Hkw Hsep. induction segs as [|p ps IH]; intros H.
  - change (Py.join [sep] []) with (@nil N) in H.
    by rewrite contains_nil_false in H.
  - destruct ps as [|q ps].
    + exists p. split; [by left|done].
    + change (Py.join [sep] (p :: q :: ps))
        with (p ++ sep :: Py.join [sep] (q :: ps)) in H.
      apply contains_sep in H as [H|H]; [| |done].
      * exists p. split; [by left|done].
      * destruct (IH H) as (seg & Hin & Hc).
        exists seg. split; [by right|done].
Qed.

Lemma lower_app (s t : str) : Py.lower (s ++ t) = Py.lower s ++ Py.lower t.
Proof. unfold Py.lower. apply flat_map_app. Qed.

Lemma lower_join_dot (segs : list str) :
  Py.lower (Py.join [183] segs) = Py.join [183] (map Py.lower segs).
Proof.
  induction segs as [|p ps IH]; [done|].
  destruct ps as [|q ps]; [done|].
  change (Py.join [183] (p :: q :: ps))
    with (p ++ [183] ++ Py.join [183] (q :: ps)).
  rewrite !lower_app, IH. reflexivity.
Qed.

Lemma is_space_where (c : N) :
  Py.is_space c = true → c <= 32 ∨ c = 133 ∨ c = 160 ∨ 5760 <= c.
Proof.
  unfold Py.is_space, Py.in_range. intros H.
  repeat (apply orb_true_iff in H as [H|H]);
    repeat (apply andb_true_iff in H as [? H]);
    repeat match goal with
           | H : (_ <=? _) = true |- _ => apply N.leb_le in H
           | H : (_ =? _) = true |- _ => apply N.eqb_eq in H
           end; lia.
Qed.

(** Whitespace has no case. *)
Lemma lower_char_space (c : N) :
  Py.is_space c = true → Py.lower_char c = [c].
Proof.
  intros H. apply is_space_where in H.
  unfold Py.lower_char, Py.is_upper_ascii, Py.in_range.
  repeat match goal with
         | |- context [?a <=? ?b] =>
             destruct (N.leb_spec a b); simpl; try lia
         | |- context [?a =? ?b] =>
             destruct (N.eqb_spec a b); simpl; try lia
         end; try reflexivity.
Qed.

Lemma lower_spaces (ws : str) :
  Forall (fun c => Py.is_space c = true) ws → Py.lower ws = ws.
Proof.
  induction 1 as [|c ws Hc _ IH]; [done|].
  change (Py.lower (c :: ws)) with (Py.lower_char c ++ Py.lower ws).
  by rewrite lower_char_space, IH.
Qed.

(** ** Address *)

(** The keywords are non-empty and hold neither the middle dot nor
    whitespace. *)
Lemma keyword_facts :
  Forall (fun kw : str =>
            kw ≠ [] ∧ (183 ∉ kw)
            ∧ Forall (fun c => Py.is_space c = false) kw)
         address_keywords.
Proof. apply (bool_decide_unpack _). vm_compute. exact I. Qed.

(** A text holding a keyword has a middle-dot segment that still holds it
    once trimmed. *)
Lemma has_keyword_segment (text : str) :
  has_address_keyword text = true →
  ∃ seg, seg ∈ Py.split 183 text
         ∧ has_address_keyword (Py.strip seg) = true.
Proof.
  unfold has_address_keyword. intros H.
  apply existsb_exists in H as (kw & Hin & Hc).
  pose proof keyword_facts as Hk. rewrite Forall_forall in Hk.
  destruct (Hk kw) as (Hne & Hdot & Hsp); [by apply list_elem_of_In|].
  rewrite <- (join_split 183 text), lower_join_dot in Hc.
  apply contains_join in Hc as (seg' & Hseg' & Hc); [|done..].
  apply list_elem_of_fmap in Hseg' as (seg & -> & Hseg).
  exists seg. split; [done|].
  apply existsb_exists. exists kw. split; [done|].
  destruct (strip_decompose seg) as (ws1 & ws2 & Hs & H1 & H2).
  rewrite Hs, !lower_app, (lower_spaces ws1), (lower_spaces ws2) in Hc
    by done.
  assert (∀ ws, Forall (fun c => Py.is_space c = true) ws →
                Forall (fun c => c ∉ kw) ws) as Hout.
  { intros ws Hws. eapply Forall_impl; [exact Hws|].
    intros c Hc1 Hc2. rewrite Forall_forall in Hsp.
    specialize (Hsp c Hc2). simpl in *. congruence. }
  apply contains_skip_prefix in Hc; [|done|by apply Hout].
  apply contains_skip_suffix in Hc; [done|done|by apply Hout].
Qed.

(** The segment loop returns the first segment that, trimmed, holds a
    keyword. *)
Lemma first_address_part_spec (parts : list str) :
  match first_address_part parts with
  | Some part =>
      ∃ before segment after,
        parts = before ++ segment :: after
        ∧ Forall (fun s => has_address_keyword (Py.strip s) = false) before
        ∧ part = Py.strip segment
        ∧ has_address_keyword part = true
  | None => Forall (fun s => has_address_keyword (Py.strip s) = false) parts
  end.
Proof.
  induction parts as [|p ps IH]; simpl; [done|].
  destruct (has_address_keyword (Py.strip p)) eqn:Hp.
  - by exists [], p, ps.
  - destruct (first_address_part ps) as [part|].
    + destruct IH as (before & segment & after & -> & Hb & -> & Hk).
      exists (p :: before), segment, after. repeat split; [|done].
      by constructor.
    + by constructor.
Qed.

Lemma address_of_candidate (div : node) :
  address_candidate div = true → is_Some (address_of div).
Proof.
  intros Hc. unfold address_of. rewrite Hc.
  unfold address_candidate in Hc. apply andb_true_iff in Hc as [Hk _].
  apply has_keyword_segment in Hk as (seg & Hin & Hseg).
  pose proof (first_address_part_spec (Py.split 183 (Bs4.get_text div)))
    as Hspec.
  destruct (first_address_part _) as [part|]; [by eexists|].
  rewrite Forall_forall in Hspec. specialize (Hspec seg Hin).
  simpl in *. congruence.
Qed.

Lemma address_div_spec (b : dict) (div : node) :
  address_div b div =
  if address_candidate div then write_address div b else b.
Proof.
  destruct (address_candidate div) eqn:Hc.
  - destruct (address_of_candidate div Hc) as [part Hpart].
    unfold write_address. rewrite Hpart. simpl.
    unfold address_of in Hpart. rewrite Hc in Hpart.
    unfold address_candidate in Hc. apply andb_true_iff in Hc as [Hk Hd].
    unfold address_div. cbv zeta. by rewrite Hk, Hd, Hpart.
  - unfold address_candidate in Hc. unfold address_div. cbv zeta.
    destruct (has_address_keyword _); [|done].
    simpl in Hc. by rewrite Hc.
Qed.

Lemma extract_address_spec (c : node) (b : dict) :
  extract_address c b =
  foldl (fun b div => if address_candidate div then write_address div b
                      else b) b (info_divs c).
Proof.
  unfold extract_address, info_divs. apply foldl_ext_dict.
  apply address_div_spec.
Qed.

Lemma fields_of_adresse (c ne : node) (k : string) :
  k = "adresse"%string ∨ k = "ville"%string →
  fields_of c ne !! k =
  match last (filter (fun d => address_candidate d = true) (info_divs c))
  with
  | Some div =>
      Some (if decide (k = "adresse"%string)
            then VStr (default [] (address_of div))
            else VStr (_extract_city_from_address
                         (VStr (default [] (address_of div)))))
  | None => None
  end.
Proof.
  intros Hk. unfold fields_of. cbv zeta.
  rewrite extract_status_other, extract_website_other, extract_phone_other
    by (destruct Hk; by subst).
  rewrite extract_address_spec.
  rewrite (foldl_last_write address_candidate write_address
             (fun div =>
                if decide (k = "adresse"%string)
                then VStr (default [] (address_of div))
                else VStr (_extract_city_from_address
                             (VStr (default [] (address_of div)))))).
  - destruct (last _); [done|].
    rewrite rating_fields_other by (destruct Hk; by subst).
    destruct Hk; subst; by simplify_map_eq.
  - intros div b. unfold write_address. cbv zeta.
    destruct Hk; subst; by simplify_map_eq.
Qed.

(** C4 (as amended). An info element sets the address only when its text
    holds an address keyword and a middle dot; the address is then the
    first middle-dot segment that, trimmed, holds a keyword, the city is
    inferred from it, and the last such element wins.  Without such an
    element the address and the city stay absent, and the record carries
    their placeholders. *)
Theorem address_needs_keyword_and_middle_dot
    (self : HTMLGoogleMapsExtractor) (container : node) (record : dict) :
  _extract_single_business self container = Some record →
  match last (filter (fun d => address_candidate d = true)
                     (info_divs container)) with
  | Some div =>
      ∃ before segment after,
        Py.split 183 (Bs4.get_text div) = before ++ segment :: after
        ∧ Forall (fun s => has_address_keyword (Py.strip s) = false) before
        ∧ has_address_keyword (Py.strip segment) = true
        ∧ record !! "adresse" = Some (VStr (Py.strip segment))
        ∧ record !! "ville" =
            Some (VStr (_extract_city_from_address
                          (VStr (Py.strip segment))))
  | None =>
      (∀ name_element,
          ∃ fields,
            extract_fields container name_element = Ok fields
            ∧ fields !! "adresse" = None
            ∧ fields !! "ville" = None)
      ∧ record !! "adresse" = Some (VStr non_specifiee)
      ∧ record !! "ville" = Some (VStr non_specifiee)
  end.
Proof.
  rewrite single_business_spec. intros H.
  destruct (Bs4.find _ _ container) as [ne|]; [|done].
  destruct (Py.truthy _); [|done].
  destruct (review_overflow container) eqn:Hcount; [done|].
  injection H as <-.
  rewrite (add_defaults_default self _ "adresse" (VStr non_specifiee))
    by in_list.
  rewrite (add_defaults_default self _ "ville" (VStr non_specifiee))
    by in_list.
  pose proof (fun ne => fields_of_adresse container ne "adresse"
                          (or_introl eq_refl)) as Ha.
  pose proof (fun ne => fields_of_adresse container ne "ville"
                          (or_intror eq_refl)) as Hv.
  destruct (last _) as [div|] eqn:Hlast.
  - assert (address_candidate div = true) as Hc.
    { apply last_Some_elem_of in Hlast.
      by apply list_elem_of_filter in Hlast as [? _]. }
    destruct (address_of_candidate div Hc) as [part Hpart].
    rewrite Ha, Hv, Hpart. simpl.
    unfold address_of in Hpart. rewrite Hc in Hpart.
    pose proof (first_address_part_spec (Py.split 183 (Bs4.get_text div)))
      as Hspec.
    rewrite Hpart in Hspec.
    destruct Hspec as (before & segment & after & Hs & Hb & -> & Hk).
    exists before, segment, after. repeat split; try done.
  - split; [|by rewrite Ha, Hv].
    intros ne'. exists (fields_of container ne').
    rewrite extract_fields_returns, Hcount. by rewrite Ha, Hv.
Qed.

Lemma address_needs_keyword_and_middle_dot_witness :
  ∃ record before segment after,
    _extract_single_business no_override chez_paul = Some record
    ∧ Py.split 183 (u"Restaurant · 12 Rue de la Paix, 75002 Paris")
      = before ++ segment :: after
    ∧ Forall (fun s => has_address_keyword (Py.strip s) = false) before
    ∧ has_address_keyword (Py.strip segment) = true
    ∧ record !! "adresse" = Some (VStr (Py.strip segment))
    ∧ record !! "ville" =
        Some (VStr (_extract_city_from_address (VStr (Py.strip segment)))).
Proof.
  assert (is_Some (_extract_single_business no_override chez_paul))
    as [record E] by by_evaluation.
  pose proof (address_needs_keyword_and_middle_dot no_override chez_paul
                record E) as H.
  assert (Bs4.get_text
            <$> last (filter (fun d => address_candidate d = true)
                             (info_divs chez_paul))
          = Some (u"Restaurant · 12 Rue de la Paix, 75002 Paris"))
    as Hlast by by_evaluation.
  destruct (last _) as [div|]; [|done].
  injection Hlast as Htext. rewrite Htext in H.
  destruct H as (before & segment & after & H).
  exists record, before, segment, after. split; [exact E|exact H].
Defined.

(** C4 (as stated) fails: an info line with an address keyword and no
    middle dot is not stored as the address. *)
Lemma undotted_address_counterexample :
  Bs4.get_text <$> info_divs undotted_address
  = [u"12 Rue de la Paix, 75002 Paris"]
  ∧ has_address_keyword (u"12 Rue de la Paix, 75002 Paris") = true
  ∧ _extract_single_business no_override undotted_address
      ≫= (fun record => record !! "adresse")
    = Some (VStr non_specifiee).
Proof. repeat split; by_evaluation. Qed.

(** ** Rating *)

Lemma rating_fields_note (c : node) (b : dict) :
  rating_fields c b !! "note" =
  match rating_text c with
  | Some text => Some (parse_note text)
  | None => b !! "note"
  end.
Proof.
  unfold rating_fields, rating_text.
  destruct (Bs4.find "span" (Bs4.by_class_re _) c) as [rc|]; simpl; [|done].
  destruct (Bs4.find "span" (Bs4.by_class (u"MW4etd")) rc); simpl;
    repeat case_match; by simplify_map_eq.
Qed.

Lemma fields_of_note (c ne : node) :
  fields_of c ne !! "note" = parse_note <$> rating_text c.
Proof.
  unfold fields_of. cbv zeta.
  rewrite extract_status_other, extract_website_other, extract_phone_other,
    extract_address_other by done.
  rewrite rating_fields_note. destruct (rating_text c); [done|].
  by simplify_map_eq.
Qed.








(** ** The fixed city *)

Lemma record_ville_str (self : HTMLGoogleMapsExtractor) (c : node)
    (record : dict) :
  _extract_single_business self c = Some record →
  ∃ ville, record !! "ville" = Some (VStr ville).
Proof.
  rewrite single_business_spec. intros H.
  destruct (Bs4.find _ _ c) as [ne|]; [|done].
  destruct (Py.truthy _); [|done].
  destruct (review_overflow _); [done|]. injection H as <-.
  rewrite (add_defaults_default self _ "ville" (VStr non_specifiee))
    by in_list.
  rewrite (fields_of_adresse c ne "ville") by by right.
  destruct (last _); simpl; eauto.
Qed.

(** The fragment extractor reads the fixed category only. *)
Lemma single_business_ignores_city (self other : HTMLGoogleMapsExtractor)
    (c : node) :
  default_business_type other = default_business_type self →
  _extract_single_business other c = _extract_single_business self c.
Proof.
  intros H. rewrite !single_business_spec. unfold add_defaults.
  by rewrite H.
Qed.

Lemma extraction_ignores_city (self other : HTMLGoogleMapsExtractor)
    (soup : node) :
  default_business_type other = default_business_type self →
  extraction_of other soup = extraction_of self soup.
Proof.
  intros H. unfold extraction_of, extract_containers.
  generalize extraction_start.
  induction (business_containers soup) as [|c l IH]; intros st; [done|].
  simpl. rewrite !extract_container_spec.
  by rewrite (single_business_ignores_city self other c H), IH.
Qed.

Lemma business_of_container (self : HTMLGoogleMapsExtractor) (soup : node)
    (record : dict) :
  record ∈ businesses (extraction_of self soup) →
  ∃ c, c ∈ business_containers soup
       ∧ _extract_single_business self c = Some record.
Proof.
  unfold extraction_of.
  destruct (extract_containers_start self (business_containers soup))
    as (-> & _).
  intros H. by apply list_elem_of_omap in H.
Qed.

(** C3 (as amended). With a fixed city set, the city delivered for every
    record of the batch ([_get_or_create_ville_option], the [Ville]
    property) is the fixed city, trimmed, whatever city was inferred; the
    [ville] field of the records themselves does not depend on it. *)
Theorem fixed_city_replaces_city_at_delivery
    (BeautifulSoup : str → result node) (self : HTMLGoogleMapsExtractor)
    (city html : str) (record : dict) :
  attr_if_set (default_city self) = Some city →
  record ∈ extract_businesses_from_html BeautifulSoup self html →
  notion_ville self record = Some (Py.strip city)
  ∧ (∀ ville, _get_or_create_ville_option self ville = Py.strip city)
  ∧ (∀ other,
        default_business_type other = default_business_type self →
        extract_businesses_from_html BeautifulSoup other html
        = extract_businesses_from_html BeautifulSoup self html).
Proof.
  intros Hcity Hrec.
  assert (∀ ville, _get_or_create_ville_option self ville = Py.strip city)
    as Hopt.
  { intros ville. unfold _get_or_create_ville_option. by rewrite Hcity. }
  split; [|split; [exact Hopt|]].
  - unfold extract_businesses_from_html in Hrec.
    destruct (BeautifulSoup html) as [soup|e]; simpl in Hrec;
      [|by apply elem_of_nil in Hrec].
    apply business_of_container in Hrec as (c & _ & Hc).
    apply record_ville_str in Hc as (ville & Hv).
    unfold notion_ville. rewrite Hv. simpl. by rewrite Hopt.
  - intros other Hother. unfold extract_businesses_from_html.
    destruct (BeautifulSoup html) as [soup|e]; simpl; [|done].
    by rewrite (extraction_ignores_city self other soup Hother).
Qed.

Lemma fixed_city_replaces_city_at_delivery_witness :
  ∃ record,
    record ∈ extract_businesses_from_html (fun _ => Ok results_page)
               nantes_override []
    ∧ notion_ville nantes_override record = Some (u"Nantes").
Proof.
  assert (is_Some (extract_businesses_from_html (fun _ => Ok results_page)
                     nantes_override [] !! 0%nat))
    as [record Hrec] by by_evaluation.
  apply list_elem_of_lookup_2 in Hrec.
  exists record. split; [done|].
  destruct (fixed_city_replaces_city_at_delivery (fun _ => Ok results_page)
              nantes_override (u"Nantes") [] record) as (H & _);
    [by_evaluation | done |].
  rewrite H. by_evaluation.
Defined.

(** C3 (as stated) fails: with the fixed city "Nantes", the first record
    of the batch keeps the city "Paris" inferred from its address. *)
Lemma fixed_city_not_in_record_counterexample :
  attr_if_set (default_city nantes_override) = Some (u"Nantes")
  ∧ (extract_businesses_from_html (fun _ => Ok results_page)
       nantes_override [] !! 0%nat)
      ≫= (fun record => record !! "ville")
    = Some (VStr (u"Paris")).
Proof. split; by_evaluation. Qed.

(** ** Unparseable documents *)

(** C6. When the parser raises on the markup, the error is caught:
    [extract_businesses_from_html] returns the empty list and
    [process_html_file] returns the report with all three counts zero,
    without touching the remote workspace. *)
Theorem unparseable_document_gives_empty_report {W : Type}
    (open_read : string → result str) (BeautifulSoup : str → result node)
    (check_if_company_exists : W → value → bool)
    (send_to_notion : HTMLGoogleMapsExtractor → W → dict → bool * W)
    (self : HTMLGoogleMapsExtractor) (w : W) (html_file_path : string)
    (html_content : str) (default_city default_business_type : option str)
    (e : exn) :
  open_read html_file_path = Ok html_content →
  BeautifulSoup html_content = Raise e →
  extract_businesses_from_html BeautifulSoup self html_content = []
  ∧ process_html_file open_read BeautifulSoup check_if_company_exists
      send_to_notion w html_file_path default_city default_business_type
    = (Stats 0 0 0 None None, w).
Proof.
  intros Hread Hparse. split.
  - unfold extract_businesses_from_html. by rewrite Hparse.
  - unfold process_html_file, extract_businesses_from_html.
    by rewrite Hread; simpl; rewrite Hparse.
Qed.

Lemma unparseable_document_gives_empty_report_witness :
  extract_businesses_from_html (fun _ => Raise ParserError) no_override
    (u"<div")
  = []
  ∧ process_html_file (fun _ => Ok (u"<div")) (fun _ => Raise ParserError)
      (fun (_ : unit) _ => false) (fun _ w _ => (true, w))
      tt "result.html" None None
    = (Stats 0 0 0 None None, tt).
Proof.
  by apply (unparseable_document_gives_empty_report
              (fun _ => Ok (u"<div")) (fun _ => Raise ParserError)
              (fun (_ : unit) _ => false) (fun _ w _ => (true, w))
              no_override tt "result.html" (u"<div") None None ParserError).
Defined.

(** ** City inference *)



(** C10. City inference returns a string for every argument.  On a string
    the body of its [try] block does not raise: the group read after a
    match of the postal-code pattern is always set, and the last segment
    is read from a list that is not empty.  On anything else the search
    raises [TypeError]; and whenever the body raises, the handler returns
    the placeholder. *)
Theorem city_inference_is_total (address : value) :
  match city_body address with
  | Ok city => _extract_city_from_address address = city
  | Raise _ => _extract_city_from_address address = non_specifiee
  end
  ∧ (∀ a, address = VStr a →
          ∃ city, city_body address = Ok city
                  ∧ _extract_city_from_address address = city)
  ∧ ((∀ a, address ≠ VStr a) →
     city_body address = Raise TypeError
     ∧ _extract_city_from_address address = non_specifiee).
Proof.
  split; [|split].
  - unfold _extract_city_from_address. by destruct (city_body address).
  - intros a ->. exists (city_of_str a). split.
    + apply city_on_str_returns.
    + apply extract_city_of_str.
  - intros Hstr. destruct address as [|a| |]; try done.
    by destruct (Hstr a).
Qed.

(** ** A batch with a nameless fragment *)

Lemma missing_name_counts_one_failure_witness :
  _extract_single_business no_override nameless = None
  ∧ failed_extractions (extraction_of no_override results_page)
    = (failed_extractions
         (extract_containers no_override extraction_start [chez_paul])
       + 1
       + failed_extractions
           (extract_containers no_override extraction_start [name_only]))%Z
  ∧ (successful_extractions (extraction_of no_override results_page)
     + failed_extractions (extraction_of no_override results_page))%Z
    = Z.of_nat (length (business_containers results_page)).
Proof.
  destruct (missing_name_counts_one_failure no_override results_page
              [chez_paul] [name_only] nameless)
    as (H1 & _ & _ & _ & _ & _ & _ & H2 & H3);
    [reflexivity | reflexivity |].
  by repeat split.
Defined.

(* ===================================================================== *)
(** * Further properties of the extractor *)
(* ===================================================================== *)

(** ** The fields of a record *)

Lemma add_defaults_other (self : HTMLGoogleMapsExtractor) (b : dict)
    (k : string) :
  k ∉ record_fields → add_defaults self b !! k = b !! k.
Proof.
  intros Hk. unfold record_fields in Hk.
  repeat (apply not_elem_of_cons in Hk as [? Hk]).
  unfold add_defaults. cbv zeta.
  repeat first [ rewrite lookup_setdefault_ne by congruence
               | rewrite lookup_insert_ne by congruence ].
  done.
Qed.

Lemma fields_of_other (c ne : node) (k : string) :
  k ∉ record_fields → fields_of c ne !! k = None.
Proof.
  intros Hk. unfold record_fields in Hk.
  repeat (apply not_elem_of_cons in Hk as [? Hk]).
  unfold fields_of. cbv zeta.
  rewrite extract_status_other, extract_website_other, extract_phone_other,
    extract_address_other, rating_fields_other by done.
  rewrite lookup_insert_ne by congruence. apply lookup_empty.
Qed.

(** X1. A record holds the nine fields and no other key. *)
Theorem record_has_exactly_nine_fields
    (self : HTMLGoogleMapsExtractor) (container : node) (record : dict) :
  _extract_single_business self container = Some record →
  dom record = list_to_set record_fields.
Proof.
  rewrite single_business_spec. intros H.
  destruct (Bs4.find _ _ container) as [ne|]; [|done].
  destruct (Py.truthy _); [|done].
  destruct (review_overflow _); [done|]. injection H as <-.
  apply set_eq. intros k. rewrite elem_of_dom, elem_of_list_to_set.
  split.
  - intros Hs. destruct (decide (k ∈ record_fields)) as [|Hk]; [done|].
    rewrite add_defaults_other, fields_of_other in Hs by done.
    by destruct Hs.
  - intros Hk. apply add_defaults_present; [done|].
    rewrite fields_of_nom. by eexists.
Qed.

Lemma record_has_exactly_nine_fields_witness :
  ∃ record,
    _extract_single_business no_override chez_paul = Some record
    ∧ dom record = list_to_set record_fields.
Proof.
  assert (is_Some (_extract_single_business no_override chez_paul))
    as [record E] by by_evaluation.
  exists record. split; [done|].
  exact (record_has_exactly_nine_fields no_override chez_paul record E).
Defined.

(** ** The number of reviews *)

Lemma int_of_digits_nonneg (s : str) : (0 <= int_of_digits s)%Z.
Proof.
  unfold int_of_digits.
  assert (∀ acc, (0 <= acc)%Z →
            (0 <= foldl (fun acc c => 10 * acc + Z.of_N (c - 48)) acc s)%Z)
    as H; [|by apply H].
  induction s as [|c s IH]; intros acc Hacc; simpl; [done|].
  apply IH. lia.
Qed.

Lemma rating_fields_avis (c : node) (b : dict) :
  rating_fields c b !! "nombre_avis" =
  match review_digits c with
  | Some digits => Some (VInt (int_of_digits digits))
  | None => b !! "nombre_avis"
  end.
Proof.
  unfold rating_fields, review_digits, reviews_text.
  destruct (Bs4.find "span" (Bs4.by_class_re _) c) as [rc|]; simpl; [|done].
  destruct (Bs4.find "span" (Bs4.by_class (u"UY7F9")) rc) as [rt|]; simpl.
  - destruct (Re.search reviews_pattern _); simpl;
      repeat case_match; by simplify_map_eq.
  - repeat case_match; by simplify_map_eq.
Qed.

Lemma fields_of_avis (c ne : node) :
  fields_of c ne !! "nombre_avis" =
  (fun digits => VInt (int_of_digits digits)) <$> review_digits c.
Proof.
  unfold fields_of. cbv zeta.
  rewrite extract_status_other, extract_website_other, extract_phone_other,
    extract_address_other by done.
  rewrite rating_fields_avis. destruct (review_digits c); [done|].
  by simplify_map_eq.
Qed.

(** X2. The review count of a record is a non-negative integer: the value
    of a non-empty run of decimal digits that stands between parentheses
    in the text of the reviews element, and 0 when there is no such
    element or no such run. *)
Theorem review_count_is_parenthesised_number
    (self : HTMLGoogleMapsExtractor) (container : node) (record : dict) :
  _extract_single_business self container = Some record →
  (∃ count, record !! "nombre_avis" = Some (VInt count) ∧ (0 <= count)%Z)
  ∧ match review_digits container with
    | Some digits =>
        record !! "nombre_avis" = Some (VInt (int_of_digits digits))
        ∧ digits ≠ [] ∧ Forall (fun c => Py.is_decimal c = true) digits
        ∧ ∃ text before after,
            reviews_text container = Some text
            ∧ text = before ++ 40 :: digits ++ 41 :: after
    | None => record !! "nombre_avis" = Some (VInt 0)
    end.
Proof.
  rewrite single_business_spec. intros H.
  destruct (Bs4.find _ _ container) as [ne|]; [|done].
  destruct (Py.truthy _); [|done].
  destruct (review_overflow _); [done|]. injection H as <-.
  rewrite (add_defaults_default self _ "nombre_avis" (VInt 0)) by in_list.
  rewrite fields_of_avis.
  destruct (review_digits container) as [digits|] eqn:Hd; simpl.
  - split; [exists (int_of_digits digits); split;
            [done|apply int_of_digits_nonneg]|].
    split; [done|].
    unfold review_digits in Hd.
    destruct (reviews_text container) as [text|]; [|done]. simpl in Hd.
    destruct (Re.search reviews_pattern text) as [m|] eqn:Hm; [|done].
    simpl in Hd. injection Hd as <-.
    apply search_from_sound in Hm as (before & rest & -> & Hm).
    apply reviews_match_shape in Hm as (digits & post & -> & Hne & Hdec & ->).
    simpl. repeat split; [done..|]. by eexists _, before, post.
  - split; [|done]. exists 0%Z. split; [done|lia].
Qed.

Lemma review_count_is_parenthesised_number_witness :
  ∃ record,
    _extract_single_business no_override chez_paul = Some record
    ∧ review_digits chez_paul = Some (u"128")
    ∧ record !! "nombre_avis" = Some (VInt 128).
Proof.
  assert (is_Some (_extract_single_business no_override chez_paul))
    as [record E] by by_evaluation.
  exists record. split; [done|].
  destruct (review_count_is_parenthesised_number no_override chez_paul
              record E) as (_ & H).
  assert (review_digits chez_paul = Some (u"128")) as Hd by by_evaluation.
  rewrite Hd in H. destruct H as (H & _).
  split; [done|]. rewrite H. by_evaluation.
Defined.

(** ** Phone, website and status, as the later steps leave them *)

Lemma fields_of_telephone (c ne : node) :
  fields_of c ne !! "telephone" = VStr <$> phone_text c.
Proof.
  unfold fields_of. cbv zeta.
  rewrite extract_status_other, extract_website_other by done.
  unfold extract_phone, phone_text.
  destruct (Bs4.find "span" (Bs4.by_class (u"UsdlK")) c); simpl.
  - by rewrite lookup_insert_eq.
  - rewrite extract_address_other, rating_fields_other by done.
    by simplify_map_eq.
Qed.

Lemma fields_of_site_web (c ne : node) :
  fields_of c ne !! "site_web" = VStr <$> website_href c.
Proof.
  unfold fields_of. cbv zeta.
  rewrite extract_status_other by done.
  assert (extract_phone c
            (extract_address c
               (rating_fields c (<["nom" := VStr (Bs4.get_text ne)]> ∅)))
          !! "site_web" = None) as Hnone.
  { rewrite extract_phone_other, extract_address_other,
      rating_fields_other by done. by simplify_map_eq. }
  unfold extract_website, website_href.
  destruct (Bs4.find "a" (Bs4.by_class_re website_pattern) c) as [link|];
    simpl; [|done].
  destruct (Bs4.get "href" link) as [href|]; simpl; [|done].
  destruct (Py.truthy href); [|done]. by rewrite lookup_insert_eq.
Qed.

Lemma fields_of_statut (c ne : node) :
  fields_of c ne !! "statut_ouverture" =
  (fun e => VStr (Bs4.get_text e))
    <$> last (filter (fun e => status_match e = true) (status_elements c)).
Proof.
  unfold fields_of. cbv zeta. rewrite extract_status_last.
  destruct (last _); [done|]. by rewrite fields_of_before_status.
Qed.

(** X3. The category of a record is the fixed category when one is set and
    the placeholder otherwise, whatever the fragment holds; it is never
    the empty string. *)
Theorem category_comes_from_override_only
    (self : HTMLGoogleMapsExtractor) (container : node) (record : dict) :
  _extract_single_business self container = Some record →
  record !! "type_entreprise" = Some (VStr (category self))
  ∧ category self ≠ []
  ∧ (attr_if_set (default_business_type self) = None →
     category self = non_specifie)
  ∧ (∀ fixed, default_business_type self = Some (Some fixed) →
              fixed ≠ [] → category self = fixed).
Proof.
  rewrite single_business_spec. intros H.
  destruct (Bs4.find _ _ container) as [ne|]; [|done].
  destruct (Py.truthy _); [|done].
  destruct (review_overflow _); [done|]. injection H as <-.
  rewrite add_defaults_type. split; [done|].
  unfold category, attr_if_set. repeat split.
  - destruct (default_business_type self) as [[s|]|]; simpl;
      try by_evaluation.
    destruct (Py.truthy s) eqn:Hs; simpl; [|by_evaluation].
    by apply truthy_nonempty.
  - by intros ->.
  - intros fixed -> Hne. apply truthy_nonempty in Hne. by rewrite Hne.
Qed.

Lemma category_comes_from_override_only_witness :
  ∃ record,
    _extract_single_business
      {| default_city := Some None;
         default_business_type := Some (Some (u"Restaurant")) |}
      name_only = Some record
    ∧ record !! "type_entreprise" = Some (VStr (u"Restaurant")).
Proof.
  assert (is_Some
            (_extract_single_business
               {| default_city := Some None;
                  default_business_type := Some (Some (u"Restaurant")) |}
               name_only)) as [record E] by by_evaluation.
  exists record. split; [done|].
  destruct (category_comes_from_override_only _ _ _ E) as (H & _).
  rewrite H. by_evaluation.
Defined.

(** X4. The phone of a record is the text of the first phone element,
    which may be empty, and the website the [href] of the first website
    link when that is a non-empty string; each is the placeholder
    otherwise, and no later step changes them. *)
Theorem contact_fields_or_placeholders
    (self : HTMLGoogleMapsExtractor) (container : node) (record : dict) :
  _extract_single_business self container = Some record →
  record !! "telephone" =
    Some (VStr (default non_specifie (phone_text container)))
  ∧ record !! "site_web" =
      Some (VStr (default non_specifie (website_href container)))
  ∧ default non_specifie (website_href container) ≠ [].
Proof.
  rewrite single_business_spec. intros H.
  destruct (Bs4.find _ _ container) as [ne|]; [|done].
  destruct (Py.truthy _); [|done].
  destruct (review_overflow _); [done|]. injection H as <-.
  rewrite (add_defaults_default self _ "telephone" (VStr non_specifie))
    by in_list.
  rewrite (add_defaults_default self _ "site_web" (VStr non_specifie))
    by in_list.
  rewrite fields_of_telephone, fields_of_site_web.
  split; [by destruct (phone_text container)|].
  split; [by destruct (website_href container)|].
  unfold website_href.
  destruct (Bs4.find "a" _ container) as [link|]; simpl; [|by_evaluation].
  destruct (Bs4.get "href" link) as [href|]; simpl; [|by_evaluation].
  destruct (Py.truthy href) eqn:Hh; simpl; [|by_evaluation].
  by apply truthy_nonempty.
Qed.

Lemma contact_fields_or_placeholders_witness :
  ∃ record,
    _extract_single_business no_override chez_paul = Some record
    ∧ record !! "telephone" = Some (VStr (u"01 23 45 67 89"))
    ∧ record !! "site_web" = Some (VStr (u"https://chezpaul.example")).
Proof.
  assert (is_Some (_extract_single_business no_override chez_paul))
    as [record E] by by_evaluation.
  exists record. split; [done|].
  destruct (contact_fields_or_placeholders no_override chez_paul record E)
    as (H1 & H2 & _).
  rewrite H1, H2. split; by_evaluation.
Defined.

(** ** The inferred city is never empty *)

(** Deleting the matches of a one-character class removes exactly the
    characters of the class. *)
Lemma delete_class (p : N → bool) (s : str) (prev : option N) :
  Re.delete_from (Re.Class p) prev 0 s = filter (fun c => p c = false) s.
Proof.
  revert prev. induction s as [|c s IH]; intros prev; [done|].
  cbn [Re.delete_from]. unfold Re.match_at. cbn [Re.run].
  rewrite filter_cons. destruct (p c) eqn:Hp.
  - rewrite decide_False by done. cbn [Re.group0].
    replace (length (c :: s) - length s)%nat with 1%nat by (simpl; lia).
    cbn [take length]. apply IH.
  - rewrite decide_True by done. by rewrite IH.
Qed.

Lemma lstrip_snoc (s : str) (c : N) :
  Py.is_space c = false → ∃ s', Py.lstrip (s ++ [c]) = s' ++ [c].
Proof.
  intros Hc. induction s as [|d s (s' & IH)]; simpl.
  - rewrite Hc. by exists [].
  - destruct (Py.is_space d); [by exists s'|]. by exists (d :: s).
Qed.

(** Trimming keeps a first character that is not whitespace. *)
Lemma strip_head (c : N) (s : str) :
  Py.is_space c = false → ∃ s', Py.strip (c :: s) = c :: s'.
Proof.
  intros Hc. unfold Py.strip, Py.rstrip. simpl. rewrite Hc.
  rewrite reverse_cons.
  destruct (lstrip_snoc (reverse s) c Hc) as (s' & ->).
  exists (reverse s'). by rewrite reverse_app.
Qed.

Ltac split_ranges H :=
  unfold city_initial, Py.in_range in H;
  repeat (apply orb_true_iff in H as [H|H]);
  repeat (apply andb_true_iff in H as [? H]);
  repeat match goal with
         | H : (_ <=? _) = true |- _ => apply N.leb_le in H
         | H : (_ =? _) = true |- _ => apply N.eqb_eq in H
         end.

Lemma city_initial_not_space (c : N) :
  city_initial c = true → Py.is_space c = false.
Proof.
  intros H. destruct (Py.is_space c) eqn:Hs; [|done].
  apply is_space_where in Hs. split_ranges H; lia.
Qed.

(** The first character of a city run is not residual punctuation. *)
Lemma city_initial_kept (c : N) :
  city_initial c = true →
  negb (Py.is_word c || Py.is_space c || (c =? 45) || (c =? 39)
        || Py.in_range 192 255 c) = false.
Proof.
  intros H. apply negb_false_iff.
  assert (Py.is_alpha c = true ∨ Py.in_range 192 255 c = true) as [Ha|Hr].
  { unfold Py.is_alpha, Py.is_upper_ascii, Py.in_range.
    split_ranges H.
    - left. replace (65 <=? c) with true by (symmetry; by apply N.leb_le).
      replace (c <=? 90) with true by (symmetry; by apply N.leb_le). done.
    - destruct (N.leb_spec c 255).
      + right.
        by replace (192 <=? c) with true by (symmetry; by apply N.leb_le).
      + left.
        replace (248 <=? c) with true by (symmetry; apply N.leb_le; lia).
        replace (c <=? 383) with true by (symmetry; apply N.leb_le; lia).
        simpl. by rewrite !orb_true_r. }
  - unfold Py.is_word, Py.is_alnum. by rewrite Ha.
  - rewrite Hr. by rewrite !orb_true_r.
Qed.

Lemma first_common_city_in (cities : list str) (address city : str) :
  first_common_city cities address = Some city → city ∈ cities.
Proof.
  induction cities as [|c cs IH]; simpl; [done|].
  destruct (Py.contains _ _).
  - intros [= ->]. by left.
  - intros H. right. by apply IH.
Qed.

Lemma city_of_str_nonempty (address : str) : city_of_str address ≠ [].
Proof.
  unfold city_of_str.
  destruct (Re.search city_pattern address) as [m|] eqn:Hm.
  - apply search_from_sound in Hm as (before & rest & _ & Hm).
    apply city_match_shape in Hm
      as (code & ws & initial & run & post & _ & _ & _ & _ & _ & Hi & _
          & _ & _ & -> & _).
    change (default [] (Some (initial :: run))) with (initial :: run).
    destruct (strip_head initial run (city_initial_not_space _ Hi))
      as (s1 & ->).
    unfold parasite_pattern, Re.sub_empty. rewrite delete_class.
    rewrite filter_cons, decide_True by by apply city_initial_kept.
    by destruct (strip_head initial
                   (filter (fun c => negb (Py.is_word c || Py.is_space c
                                           || (c =? 45) || (c =? 39)
                                           || Py.in_range 192 255 c)
                                     = false) s1)
                   (city_initial_not_space _ Hi)) as (s2 & ->).
  - destruct (first_common_city common_cities address) as [city|] eqn:Hc.
    + apply first_common_city_in in Hc.
      assert (Forall (fun c : str => c ≠ []) common_cities) as Hall
        by by_evaluation.
      rewrite Forall_forall in Hall. by apply Hall.
    + cbv zeta. destruct (2 <=? length _)%nat; [|by_evaluation].
      match goal with
      | |- context [Py.truthy ?s && _] => destruct (2 <? length s)%nat eqn:Hl
      end.
      * match goal with
        | |- context [Py.truthy ?s && _] =>
            destruct (Py.truthy s) eqn:Ht; simpl; [|by_evaluation]
        end.
        by apply truthy_nonempty.
      * rewrite andb_false_r. by_evaluation.
Qed.

(** X5. The inferred city is never the empty string, for any address. *)
Theorem inferred_city_is_never_empty (address : value) :
  _extract_city_from_address address ≠ [].
Proof.
  destruct address as [|a| |];
    [by_evaluation | | by_evaluation..].
  rewrite extract_city_of_str. apply city_of_str_nonempty.
Qed.

(** ** Address and city go together *)

Lemma record_adresse_ville (self : HTMLGoogleMapsExtractor) (c : node)
    (record : dict) :
  _extract_single_business self c = Some record →
  ∃ adresse,
    record !! "adresse" = Some (VStr adresse) ∧ adresse ≠ []
    ∧ record !! "ville" =
        Some (VStr (_extract_city_from_address (VStr adresse))).
Proof.
  rewrite single_business_spec. intros H.
  destruct (Bs4.find _ _ c) as [ne|]; [|done].
  destruct (Py.truthy _); [|done].
  destruct (review_overflow _); [done|]. injection H as <-.
  rewrite (add_defaults_default self _ "adresse" (VStr non_specifiee))
    by in_list.
  rewrite (add_defaults_default self _ "ville" (VStr non_specifiee))
    by in_list.
  rewrite (fields_of_adresse c ne "adresse") by by left.
  rewrite (fields_of_adresse c ne "ville") by by right.
  destruct (last _) as [div|] eqn:Hlast.
  - rewrite decide_True by done. rewrite decide_False by done.
    cbn [default from_option id].
    eexists. split; [done|]. split; [|done].
    assert (address_candidate div = true) as Hc.
    { apply last_Some_elem_of in Hlast.
      by apply list_elem_of_filter in Hlast as [? _]. }
    destruct (address_of_candidate div Hc) as [part Hpart].
    rewrite Hpart. cbn [default from_option id].
    unfold address_of in Hpart. rewrite Hc in Hpart.
    pose proof (first_address_part_spec (Py.split 183 (Bs4.get_text div)))
      as Hspec.
    rewrite Hpart in Hspec.
    destruct Hspec as (_ & _ & _ & _ & _ & _ & Hk).
    intros ->. by vm_compute in Hk.
  - exists non_specifiee. repeat split; by_evaluation.
Qed.

(** X6. The city of a record is always the city inferred from its address
    field: from the stored segment when the markup gave an address, and
    from the placeholder address, which infers the placeholder city,
    when it gave none. *)
Theorem city_is_inferred_from_address_field
    (self : HTMLGoogleMapsExtractor) (container : node) (record : dict) :
  _extract_single_business self container = Some record →
  ∃ adresse,
    record !! "adresse" = Some (VStr adresse)
    ∧ record !! "ville" =
        Some (VStr (_extract_city_from_address (VStr adresse))).
Proof.
  intros H. destruct (record_adresse_ville self container record H)
    as (adresse & Ha & _ & Hv).
  by exists adresse.
Qed.

Lemma city_is_inferred_from_address_field_witness :
  ∃ record adresse,
    _extract_single_business no_override undotted_address = Some record
    ∧ record !! "adresse" = Some (VStr adresse)
    ∧ record !! "ville" =
        Some (VStr (_extract_city_from_address (VStr adresse))).
Proof.
  assert (is_Some (_extract_single_business no_override undotted_address))
    as [record E] by by_evaluation.
  destruct (city_is_inferred_from_address_field no_override
              undotted_address record E) as (adresse & H).
  exists record, adresse. split; [exact E|exact H].
Defined.

(** ** Text fields *)

(** X7. In a record the name, the category, the address, the city, the
    website and the open status are non-empty strings; the phone is a
    string too, possibly empty. *)
Theorem text_fields_are_never_empty
    (self : HTMLGoogleMapsExtractor) (container : node) (record : dict) :
  _extract_single_business self container = Some record →
  (∀ k, k ∈ ["nom"; "type_entreprise"; "adresse"; "ville"; "site_web";
             "statut_ouverture"]%string →
        ∃ text, record !! k = Some (VStr text) ∧ text ≠ [])
  ∧ ∃ phone, record !! "telephone" = Some (VStr phone).
Proof.
  intros H.
  destruct (record_adresse_ville self container record H)
    as (adresse & Ha & Hane & Hv).
  revert H. rewrite single_business_spec. intros H.
  destruct (Bs4.find _ _ container) as [ne|]; [|done].
  destruct (Py.truthy _) eqn:Hname; [|done].
  destruct (review_overflow _); [done|]. injection H as <-.
  split.
  - intros k Hk.
    repeat (apply elem_of_cons in Hk as [->|Hk]); try (by inversion Hk).
    + rewrite add_defaults_nom, fields_of_nom.
      eexists. split; [done|]. by apply truthy_nonempty.
    + rewrite add_defaults_type. eexists. split; [done|].
      unfold attr_if_set.
      destruct (default_business_type self) as [[s|]|]; simpl;
        try by_evaluation.
      destruct (Py.truthy s) eqn:Hs; simpl; [|by_evaluation].
      by apply truthy_nonempty.
    + by exists adresse.
    + eexists. split; [exact Hv|].
      rewrite extract_city_of_str. apply city_of_str_nonempty.
    + rewrite (add_defaults_default self _ "site_web" (VStr non_specifie))
        by in_list.
      rewrite fields_of_site_web. unfold website_href.
      destruct (Bs4.find "a" _ container) as [link|]; simpl;
        [|eexists; split; [done|by_evaluation]].
      destruct (Bs4.get "href" link) as [href|]; simpl;
        [|eexists; split; [done|by_evaluation]].
      destruct (Py.truthy href) eqn:Hh; simpl;
        [|eexists; split; [done|by_evaluation]].
      eexists. split; [done|]. by apply truthy_nonempty.
    + rewrite (add_defaults_default self _ "statut_ouverture"
                 (VStr non_specifie)) by in_list.
      rewrite fields_of_statut.
      destruct (last _) as [e|] eqn:Hlast; simpl;
        [|eexists; split; [done|by_evaluation]].
      eexists. split; [done|].
      apply last_Some_elem_of, list_elem_of_filter in Hlast as [Hm _].
      unfold status_match in Hm. apply andb_true_iff in Hm as [_ Ht].
      by apply truthy_nonempty.
  - rewrite (add_defaults_default self _ "telephone" (VStr non_specifie))
      by in_list.
    rewrite fields_of_telephone.
    destruct (phone_text container); simpl; by eexists.
Qed.

Lemma text_fields_are_never_empty_witness :
  ∃ record ville,
    _extract_single_business no_override name_only = Some record
    ∧ record !! "ville" = Some (VStr ville) ∧ ville ≠ [].
Proof.
  assert (is_Some (_extract_single_business no_override name_only))
    as [record E] by by_evaluation.
  destruct (text_fields_are_never_empty no_override name_only record E)
    as (H & _).
  destruct (H "ville") as (ville & Hv & Hne); [in_list|].
  exists record, ville. split; [exact E|]. split; [exact Hv|exact Hne].
Defined.

(** ** A fragment that yields its name only *)

(** X8. When a fragment has a non-empty name and yields no rating, no
    review count, no address, no phone, no website and no status, its
    record is the name together with the documented default of every
    other field. *)
Theorem bare_fragment_gets_every_default
    (self : HTMLGoogleMapsExtractor) (container : node) (name : str) :
  name_text container = Some name → name ≠ [] →
  rating_text container = None →
  review_digits container = None →
  filter (fun d => address_candidate d = true) (info_divs container) = [] →
  phone_text container = None →
  website_href container = None →
  filter (fun e => status_match e = true) (status_elements container) = [] →
  _extract_single_business self container =
  Some (<["nom" := VStr name]>
       (<["note" := VNone]>
       (<["nombre_avis" := VInt 0]>
       (<["type_entreprise" := VStr (category self)]>
       (<["adresse" := VStr non_specifiee]>
       (<["ville" := VStr non_specifiee]>
       (<["telephone" := VStr non_specifie]>
       (<["site_web" := VStr non_specifie]>
       (<["statut_ouverture" := VStr non_specifie]> ∅))))))))).
Proof.
  intros Hname Hne Hnote Havis Haddr Hphone Hsite Hstatus.
  rewrite single_business_spec. unfold name_text in Hname.
  destruct (Bs4.find _ _ container) as [ne|]; [|done].
  injection Hname as Hname. rewrite Hname.
  apply truthy_nonempty in Hne. rewrite Hne.
  unfold review_overflow. rewrite Havis. f_equal.
  apply map_eq. intros k.
  destruct (decide (k ∈ record_fields)) as [Hk|Hk].
  - unfold record_fields in Hk.
    repeat (apply elem_of_cons in Hk as [->|Hk]); try (by inversion Hk).
    + rewrite add_defaults_nom, fields_of_nom, Hname.
      by rewrite lookup_insert_eq.
    + rewrite (add_defaults_default self _ "note" VNone) by in_list.
      rewrite fields_of_note, Hnote. by simplify_map_eq.
    + rewrite (add_defaults_default self _ "nombre_avis" (VInt 0))
        by in_list.
      rewrite fields_of_avis, Havis. by simplify_map_eq.
    + rewrite add_defaults_type. by simplify_map_eq.
    + rewrite (add_defaults_default self _ "adresse" (VStr non_specifiee))
        by in_list.
      rewrite (fields_of_adresse container ne "adresse") by by left.
      rewrite Haddr. by simplify_map_eq.
    + rewrite (add_defaults_default self _ "ville" (VStr non_specifiee))
        by in_list.
      rewrite (fields_of_adresse container ne "ville") by by right.
      rewrite Haddr. by simplify_map_eq.
    + rewrite (add_defaults_default self _ "telephone" (VStr non_specifie))
        by in_list.
      rewrite fields_of_telephone, Hphone. by simplify_map_eq.
    + rewrite (add_defaults_default self _ "site_web" (VStr non_specifie))
        by in_list.
      rewrite fields_of_site_web, Hsite. by simplify_map_eq.
    + rewrite (add_defaults_default self _ "statut_ouverture"
                 (VStr non_specifie)) by in_list.
      rewrite fields_of_statut, Hstatus. by simplify_map_eq.
  - rewrite add_defaults_other, fields_of_other by done.
    unfold record_fields in Hk.
    repeat (apply not_elem_of_cons in Hk as [? Hk]).
    symmetry.
    repeat (rewrite lookup_insert_ne by congruence). apply lookup_empty.
Qed.

Lemma bare_fragment_gets_every_default_witness :
  _extract_single_business no_override name_only =
  Some (<["nom" := VStr (u"Le Bistrot")]>
       (<["note" := VNone]>
       (<["nombre_avis" := VInt 0]>
       (<["type_entreprise" := VStr (category no_override)]>
       (<["adresse" := VStr non_specifiee]>
       (<["ville" := VStr non_specifiee]>
       (<["telephone" := VStr non_specifie]>
       (<["site_web" := VStr non_specifie]>
       (<["statut_ouverture" := VStr non_specifie]> ∅))))))))).
Proof.
  apply (bare_fragment_gets_every_default no_override name_only
           (u"Le Bistrot")); by_evaluation.
Defined.

(** ** When a fragment yields no record *)

(** X18. A fragment yields no record in exactly three cases: it has no
    name element, the text of its name element is empty, or its review
    count has more than 4300 digits, the conversion of which raises. *)
Theorem no_record_exactly_when
    (self : HTMLGoogleMapsExtractor) (container : node) :
  _extract_single_business self container = None ↔
  name_text container = None
  ∨ name_text container = Some []
  ∨ ∃ digits, review_digits container = Some digits
              ∧ (4300 < length digits)%nat.
Proof.
  rewrite <- review_overflow_digits, single_business_spec. unfold name_text.
  destruct (Bs4.find _ _ container) as [ne|]; simpl; [|by split; [left|]].
  destruct (Py.truthy (Bs4.get_text ne)) eqn:Ht.
  - apply truthy_nonempty in Ht.
    destruct (review_overflow container).
    + split; [by right; right|done].
    + split; [done|]. intros [H|[H|H]]; [done| |done].
      injection H as H. by destruct Ht.
  - split; [|done]. intros _. right. left. f_equal.
    unfold Py.truthy in Ht.
    by apply negb_false_iff, bool_decide_eq_true in Ht.
Qed.

(* ===================================================================== *)
(** * Further properties of the batch and of the driver *)
(* ===================================================================== *)

(** X9. The records of a parsed document are those of the listing
    containers that yield one, in document order; every container counts
    as one success or one failure, and each failure adds the same
    reason. *)
Theorem records_follow_document_order
    (BeautifulSoup : str → result node) (self : HTMLGoogleMapsExtractor)
    (html_content : str) (soup : node) :
  BeautifulSoup html_content = Ok soup →
  let final := extraction_of self soup in
  extract_businesses_from_html BeautifulSoup self html_content
  = omap (_extract_single_business self) (business_containers soup)
  ∧ successful_extractions final
    = Z.of_nat (length (extract_businesses_from_html BeautifulSoup self
                          html_content))
  ∧ (successful_extractions final + failed_extractions final)%Z
    = Z.of_nat (length (business_containers soup))
  ∧ extraction_errors final
    = replicate (Z.to_nat (failed_extractions final)) incomplete.
Proof.
  intros Hparse. cbv zeta.
  unfold extract_businesses_from_html. rewrite Hparse. simpl.
  unfold extraction_of.
  destruct (extract_containers_start self (business_containers soup))
    as (Hb & Hs & Ht & _).
  split; [done|]. split; [done|]. split; [done|].
  clear. induction (business_containers soup) as [|c l IH] using rev_ind.
  - done.
  - unfold extract_containers in *. rewrite foldl_app. simpl.
    rewrite extract_container_spec.
    destruct (extract_containers_start self l) as (_ & _ & _ & _ & Hf).
    unfold extract_containers in Hf.
    destruct (_extract_single_business self c); simpl; [done|].
    rewrite IH. rewrite Z2Nat.inj_add by lia.
    change (Z.to_nat 1) with 1%nat.
    rewrite Nat.add_comm. simpl.
    by rewrite <- replicate_cons_app.
Qed.

Lemma records_follow_document_order_witness :
  extract_businesses_from_html (fun _ => Ok results_page) no_override []
  = omap (_extract_single_business no_override)
         (business_containers results_page)
  ∧ length (extract_businesses_from_html (fun _ => Ok results_page)
              no_override []) = 2%nat
  ∧ failed_extractions (extraction_of no_override results_page) = 1%Z.
Proof.
  destruct (records_follow_document_order (fun _ => Ok results_page)
              no_override [] results_page eq_refl) as (H & _).
  split; [exact H|]. split; by_evaluation.
Defined.

Lemma omap_all_none {A B : Type} (f : A → option B) (l : list A) :
  Forall (fun x => f x = None) l → omap f l = [].
Proof. induction 1 as [|x l Hx _ IH]; simpl; [done|]. by rewrite Hx. Qed.

(** X10. The two reports without a record.  A file that cannot be read
    gives the report with one error; a document none of whose containers
    yields a record (in particular one without containers) gives the
    all-zero report, so failed fragments are not counted as errors.  In
    both cases the remote workspace is neither queried nor changed. *)
Theorem reports_without_records {W : Type}
    (open_read : string → result str) (BeautifulSoup : str → result node)
    (check_if_company_exists : W → value → bool)
    (send_to_notion : HTMLGoogleMapsExtractor → W → dict → bool * W)
    (w : W) (html_file_path : string)
    (default_city default_business_type : option str) :
  let report :=
    process_html_file open_read BeautifulSoup check_if_company_exists
      send_to_notion w html_file_path default_city default_business_type in
  (∀ e, open_read html_file_path = Raise e →
        report = (Stats 0 0 1 None None, w))
  ∧ (∀ html_content soup,
        open_read html_file_path = Ok html_content →
        BeautifulSoup html_content = Ok soup →
        Forall (fun c =>
                  _extract_single_business
                    (configured default_city default_business_type) c
                  = None)
               (business_containers soup) →
        report = (Stats 0 0 0 None None, w)).
Proof.
  cbv zeta. unfold process_html_file. split.
  - intros e ->. done.
  - intros html soup -> Hparse Hnone. simpl.
    unfold extract_businesses_from_html. rewrite Hparse. simpl.
    unfold extraction_of.
    destruct (extract_containers_start
                {| default_city := Some default_city;
                   default_business_type := Some default_business_type |}
                (business_containers soup)) as (-> & _).
    by rewrite omap_all_none.
Qed.

Lemma reports_without_records_witness :
  process_html_file (fun _ => Raise OSError) (fun _ => Raise ParserError)
    (fun (_ : unit) _ => false) (fun _ w _ => (true, w))
    tt "missing.html" None None
  = (Stats 0 0 1 None None, tt)
  ∧ process_html_file (fun _ => Ok [])
      (fun _ => Ok (Tag "[document]" None ∅ [nameless]))
      (fun (_ : unit) _ => false) (fun _ w _ => (true, w))
      tt "result.html" None None
    = (Stats 0 0 0 None None, tt).
Proof.
  split.
  - pose proof (reports_without_records (fun _ => Raise OSError)
                  (fun _ => Raise ParserError) (fun (_ : unit) _ => false)
                  (fun _ w _ => (true, w)) tt "missing.html" None None)
      as H.
    cbv zeta in H. destruct H as [H _]. exact (H OSError eq_refl).
  - pose proof (reports_without_records (fun _ => Ok [])
                  (fun _ => Ok (Tag "[document]" None ∅ [nameless]))
                  (fun (_ : unit) _ => false) (fun _ w _ => (true, w))
                  tt "result.html" None None) as H.
    cbv zeta in H. destruct H as [_ H].
    apply (H [] (Tag "[document]" None ∅ [nameless]) eq_refl eq_refl).
    repeat constructor.
Defined.

(** ** The delivery loop *)

Section Delivery.

Context {W : Type}.
Variable check_if_company_exists : W → value → bool.
Variable send_to_notion : HTMLGoogleMapsExtractor → W → dict → bool * W.
Variable self : HTMLGoogleMapsExtractor.

(** Each record moves exactly one of the three counters by one. *)
Lemma deliver_step (st : delivery) (b : dict) :
  let st' := deliver check_if_company_exists send_to_notion self st b in
  (success_count st' + error_count st' + duplicate_count st'
   = success_count st + error_count st + duplicate_count st + 1)%Z
  ∧ (success_count st <= success_count st')%Z
  ∧ (error_count st <= error_count st')%Z
  ∧ (duplicate_count st <= duplicate_count st')%Z.
Proof.
  cbv zeta. unfold deliver.
  destruct (check_if_company_exists _ _); simpl; [lia|].
  destruct (send_to_notion self (workspace st) b) as [[] w']; simpl; lia.
Qed.

Lemma deliver_counts (records : list dict) (st : delivery) :
  let final :=
    foldl (deliver check_if_company_exists send_to_notion self) st records
  in
  (success_count final + error_count final + duplicate_count final
   = success_count st + error_count st + duplicate_count st
     + Z.of_nat (length records))%Z
  ∧ (success_count st <= success_count final)%Z
  ∧ (error_count st <= error_count final)%Z
  ∧ (duplicate_count st <= duplicate_count final)%Z.
Proof.
  cbv zeta. revert st. induction records as [|b l IH]; intros st.
  - simpl. lia.
  - cbn [foldl length].
    specialize (IH (deliver check_if_company_exists send_to_notion self
                      st b)).
    pose proof (deliver_step st b) as Hstep. cbv zeta in Hstep. lia.
Qed.

(** Records that already exist are counted and never sent. *)
Lemma deliver_all_existing (records : list dict) (st : delivery) :
  Forall (fun b => check_if_company_exists (workspace st)
                     (default (VStr []) (b !! "nom")) = true) records →
  foldl (deliver check_if_company_exists send_to_notion self) st records
  = Delivery (success_count st) (error_count st)
             (duplicate_count st + Z.of_nat (length records))
             (workspace st).
Proof.
  revert st. induction records as [|b l IH]; intros st Hall.
  - simpl. destruct st. simpl. f_equal. lia.
  - apply Forall_cons in Hall as [Hb Hl]. cbn [foldl].
    unfold deliver at 2. rewrite Hb.
    rewrite IH by done. simpl. f_equal. lia.
Qed.

End Delivery.

(** X11. When at least one record is extracted, the report counts every
    record exactly once: the total is the number of records and equals
    successes + errors + duplicates, none of which is negative, and the
    list of error details is empty. *)
Theorem report_counts_add_up {W : Type}
    (open_read : string → result str) (BeautifulSoup : str → result node)
    (check_if_company_exists : W → value → bool)
    (send_to_notion : HTMLGoogleMapsExtractor → W → dict → bool * W)
    (w : W) (html_file_path : string)
    (default_city default_business_type : option str)
    (html_content : str) :
  open_read html_file_path = Ok html_content →
  extract_businesses_from_html BeautifulSoup
    (configured default_city default_business_type) html_content ≠ [] →
  let report :=
    fst (process_html_file open_read BeautifulSoup check_if_company_exists
           send_to_notion w html_file_path default_city
           default_business_type) in
  total report
  = Z.of_nat (length (extract_businesses_from_html BeautifulSoup
                        (configured default_city default_business_type)
                        html_content))
  ∧ error_details report = Some []
  ∧ ∃ duplicate,
      duplicates report = Some duplicate
      ∧ (success report + errors report + duplicate = total report)%Z
      ∧ (0 <= success report)%Z ∧ (0 <= errors report)%Z
      ∧ (0 <= duplicate)%Z.
Proof.
  intros Hread Hne. cbv zeta. unfold process_html_file. rewrite Hread.
  simpl. unfold configured in *.
  destruct (extract_businesses_from_html BeautifulSoup _ html_content)
    as [|b l] eqn:Hb; [done|].
  cbn [fst total error_details duplicates success errors].
  split; [done|]. split; [done|]. eexists. split; [done|].
  match goal with
  | |- context [foldl ?f ?st ?records] =>
      pose proof (deliver_counts check_if_company_exists send_to_notion
                    {| default_city := Some default_city;
                       default_business_type := Some default_business_type |}
                    records st) as H
  end.
  cbv zeta in H. simpl in H. simpl. lia.
Qed.

Lemma report_counts_add_up_witness :
  ∃ duplicate,
    duplicates
      (fst (process_html_file (fun _ => Ok []) (fun _ => Ok results_page)
              (fun (_ : unit) name =>
                 bool_decide (name = VStr (u"Le Bistrot")))
              (fun _ w _ => (true, w)) tt "result.html" None None))
    = Some duplicate
    ∧ (0 <= duplicate)%Z.
Proof.
  destruct (report_counts_add_up (fun _ => Ok []) (fun _ => Ok results_page)
              (fun (_ : unit) name =>
                 bool_decide (name = VStr (u"Le Bistrot")))
              (fun _ w _ => (true, w)) tt "result.html" None None []
              eq_refl) as (_ & _ & duplicate & Hd & _ & _ & _ & Hpos);
    [by_evaluation|].
  exists duplicate. split; [exact Hd|exact Hpos].
Defined.

Lemma nonempty_cons {A : Type} (l : list A) :
  l ≠ [] → ∃ x l', l = x :: l'.
Proof. destruct l as [|x l']; [done|]. by exists x, l'. Qed.

(** X12. When every extracted record already exists in the workspace,
    nothing is sent: all records are counted as duplicates, there is no
    success and no error, and the workspace is unchanged. *)
Theorem existing_companies_are_not_sent {W : Type}
    (open_read : string → result str) (BeautifulSoup : str → result node)
    (check_if_company_exists : W → value → bool)
    (send_to_notion : HTMLGoogleMapsExtractor → W → dict → bool * W)
    (w : W) (html_file_path : string)
    (default_city default_business_type : option str)
    (html_content : str) (first : dict) (others : list dict) :
  open_read html_file_path = Ok html_content →
  extract_businesses_from_html BeautifulSoup
    (configured default_city default_business_type) html_content
  = first :: others →
  Forall (fun b => check_if_company_exists w
                     (default (VStr []) (b !! "nom")) = true)
         (first :: others) →
  process_html_file open_read BeautifulSoup check_if_company_exists
    send_to_notion w html_file_path default_city default_business_type
  = (Stats (Z.of_nat (length (first :: others))) 0 0
           (Some (Z.of_nat (length (first :: others)))) (Some []), w).
Proof.
  intros Hread Hrecords Hall. unfold process_html_file. rewrite Hread.
  simpl. unfold configured in Hrecords. rewrite Hrecords.
  rewrite (deliver_all_existing check_if_company_exists send_to_notion)
    by done.
  done.
Qed.

Lemma existing_companies_are_not_sent_witness :
  ∃ first others,
    extract_businesses_from_html (fun _ => Ok results_page)
      (configured None None) [] = first :: others
    ∧ process_html_file (fun _ => Ok []) (fun _ => Ok results_page)
        (fun (_ : unit) _ => true) (fun _ w _ => (false, w))
        tt "result.html" None None
      = (Stats (Z.of_nat (length (first :: others))) 0 0
               (Some (Z.of_nat (length (first :: others)))) (Some []), tt).
Proof.
  assert (extract_businesses_from_html (fun _ => Ok results_page)
            (configured None None) [] ≠ []) as Hne by by_evaluation.
  destruct (nonempty_cons _ Hne) as (first & others & E).
  exists first, others. split; [exact E|].
  apply (existing_companies_are_not_sent (fun _ => Ok [])
           (fun _ => Ok results_page) (fun (_ : unit) _ => true)
           (fun _ w _ => (false, w)) tt "result.html" None None []
           first others eq_refl E).
  apply Forall_forall. intros b _. reflexivity.
Defined.

(* ===================================================================== *)
(** * Further properties of delivery and of the upload front end *)
(* ===================================================================== *)

(** ** Case mapping and trimming *)

Lemma lower_char_nonempty (c : N) : Py.lower_char c ≠ [].
Proof. unfold Py.lower_char. by repeat case_match. Qed.

Lemma title_char_nonempty (c : N) : Py.title_char c ≠ [].
Proof. unfold Py.title_char. by repeat case_match. Qed.

Lemma title_nonempty (s : str) : s ≠ [] → Py.title s ≠ [].
Proof.
  destruct s as [|c s]; [done|]. intros _. unfold Py.title. simpl.
  pose proof (title_char_nonempty c). by destruct (Py.title_char c).
Qed.

Lemma eqb_nil (s : str) : Py.eqb s [] = true ↔ s = [].
Proof. by destruct s. Qed.

Lemma split_ws_from_nonempty (s cur : str) :
  Forall (fun w : str => w ≠ []) (Py.split_ws_from cur s).
Proof.
  assert (∀ cur : str,
            Forall (fun w : str => w ≠ [])
                   (if bool_decide (cur = []) then [] else [reverse cur]))
    as Hcur.
  { intros cur'. case_bool_decide as Hc; [done|]. constructor; [|done].
    intros Hr. apply Hc. apply (f_equal reverse) in Hr.
    by rewrite reverse_involutive in Hr. }
  revert cur. induction s as [|c s IH]; intros cur; simpl; [apply Hcur|].
  destruct (Py.is_space c); [|apply IH].
  apply Forall_app. split; [apply Hcur|apply IH].
Qed.

Lemma join_nonempty (sep : str) (parts : list str) :
  parts ≠ [] → Forall (fun w : str => w ≠ []) parts →
  Py.join sep parts ≠ [].
Proof.
  destruct parts as [|p ps]; [done|]. intros _ Hall.
  apply Forall_cons in Hall as [Hp _].
  destruct ps; simpl; [done|]. by destruct p.
Qed.

(** X13. Without a fixed city, the delivered city is never the empty
    string, and it is the placeholder when the record's city is blank,
    made of digits only, or the placeholder itself. *)
Theorem delivered_city_without_override
    (self : HTMLGoogleMapsExtractor) (ville : str) :
  attr_if_set (default_city self) = None →
  _get_or_create_ville_option self ville ≠ []
  ∧ (Py.strip ville = [] ∨ Py.isdigit (Py.strip ville) = true
     ∨ ville = non_specifiee →
     _get_or_create_ville_option self ville = non_specifiee).
Proof.
  intros Hnone. unfold _get_or_create_ville_option. rewrite Hnone.
  assert (non_specifiee ≠ []) as Hns by by_evaluation.
  split.
  - destruct (negb (Py.truthy ville) || Py.eqb (Py.strip ville) []
              || Py.eqb ville non_specifiee) eqn:Hblank; [done|].
    apply orb_false_iff in Hblank as [Hblank _].
    apply orb_false_iff in Hblank as [_ Hstrip].
    assert (Py.strip ville ≠ []) as Hne.
    { intros Hs. apply eqb_nil in Hs. congruence. }
    cbv zeta. destruct (Py.isdigit (Py.strip ville)); [done|].
    apply title_nonempty.
    pose proof (split_ws_from_nonempty (Py.strip ville) []) as Hparts.
    fold (Py.split_ws (Py.strip ville)) in Hparts.
    destruct (Py.split_ws (Py.strip ville)) as [|first [|second rest]];
      [done..|].
    destruct (Py.isdigit first); [|done].
    apply join_nonempty; [done|].
    by apply Forall_cons in Hparts as [_ Hparts].
  - intros [Hs|[Hd| ->]].
    + rewrite Hs. simpl. by rewrite orb_true_r.
    + destruct (negb (Py.truthy ville) || Py.eqb (Py.strip ville) []
                || Py.eqb ville non_specifiee); [done|].
      cbv zeta. by rewrite Hd.
    + assert (Py.eqb non_specifiee non_specifiee = true) as ->
        by by_evaluation.
      by rewrite orb_true_r.
Qed.

Lemma delivered_city_without_override_witness :
  _get_or_create_ville_option no_override (u"35000 rennes") ≠ []
  ∧ _get_or_create_ville_option no_override (u" 35000 ") = non_specifiee.
Proof.
  destruct (delivered_city_without_override no_override (u"35000 rennes")
              eq_refl) as (H1 & _).
  destruct (delivered_city_without_override no_override (u" 35000 ")
              eq_refl) as (_ & H2).
  split; [exact H1|]. apply H2. right. left. by_evaluation.
Defined.

(** X14. The category delivered for a record of the extractor is the
    category of the record, trimmed: the fixed category when one is set,
    and the placeholder otherwise.  Without a fixed category the delivered
    category is never empty, whatever category it is given. *)
Theorem delivered_category_is_record_category
    (self : HTMLGoogleMapsExtractor) (container : node) (record : dict) :
  _extract_single_business self container = Some record →
  notion_type self record = Some (Select (Py.strip (category self)))
  ∧ (attr_if_set (default_business_type self) = None →
     notion_type self record = Some (Select non_specifie)
     ∧ ∀ business_type,
         select_name (_get_or_create_business_type_option self business_type)
         ≠ []).
Proof.
  rewrite single_business_spec. intros H.
  destruct (Bs4.find _ _ container) as [ne|]; [|done].
  destruct (Py.truthy _); [|done].
  destruct (review_overflow _); [done|]. injection H as <-.
  unfold notion_type. rewrite add_defaults_type.
  cbn [default from_option id].
  unfold _get_or_create_business_type_option, category. cbv zeta.
  assert (Py.truthy non_specifie
          && negb (Py.eqb (Py.strip non_specifie) []) = true) as Hns
    by by_evaluation.
  assert (Py.strip non_specifie = non_specifie) as Hstrip by by_evaluation.
  split.
  - destruct (attr_if_set (default_business_type self));
      cbn [default from_option id]; [done|].
    by rewrite Hns, Hstrip.
  - intros Hnone. rewrite Hnone. cbn [default from_option id].
    rewrite Hns, Hstrip.
    split; [done|]. intros business_type. cbn [select_name].
    destruct (Py.truthy business_type
              && negb (Py.eqb (Py.strip business_type) [])) eqn:Hb;
      [|by_evaluation].
    apply andb_true_iff in Hb as [_ Hb]. apply negb_true_iff in Hb.
    intros Hs. apply eqb_nil in Hs. congruence.
Qed.

Lemma delivered_category_is_record_category_witness :
  ∃ record,
    _extract_single_business no_override name_only = Some record
    ∧ notion_type no_override record = Some (Select non_specifie).
Proof.
  assert (is_Some (_extract_single_business no_override name_only))
    as [record E] by by_evaluation.
  exists record. split; [exact E|].
  destruct (delivered_category_is_record_category no_override name_only
              record E) as (_ & H).
  by destruct (H eq_refl) as (H' & _).
Defined.

(** X15. A phone or a website that is the placeholder is delivered as a
    null value, and any other one as it stands: for a record of the
    extractor, the phone is null exactly when the fragment has no phone
    element or its text is the placeholder text, and the website is null
    exactly when the fragment gives no non-empty link or the link is the
    placeholder text. *)
Theorem placeholders_are_delivered_as_null
    (self : HTMLGoogleMapsExtractor) (container : node) (record : dict) :
  _extract_single_business self container = Some record →
  notion_contact "telephone" record =
    match phone_text container with
    | Some phone =>
        if bool_decide (phone = non_specifie) then None
        else Some (VStr phone)
    | None => None
    end
  ∧ notion_contact "site_web" record =
      match website_href container with
      | Some href =>
          if bool_decide (href = non_specifie) then None
          else Some (VStr href)
      | None => None
      end.
Proof.
  rewrite single_business_spec. intros H.
  destruct (Bs4.find _ _ container) as [ne|]; [|done].
  destruct (Py.truthy _); [|done].
  destruct (review_overflow _); [done|]. injection H as <-.
  unfold notion_contact.
  rewrite (add_defaults_default self _ "telephone" (VStr non_specifie))
    by in_list.
  rewrite (add_defaults_default self _ "site_web" (VStr non_specifie))
    by in_list.
  rewrite fields_of_telephone, fields_of_site_web.
  split.
  - destruct (phone_text container) as [phone|].
    + change (VStr <$> Some phone) with (Some (VStr phone)).
      cbn [default from_option id].
      repeat case_bool_decide; try done; congruence.
    + change (VStr <$> None) with (@None value).
      cbn [default from_option id].
      by rewrite bool_decide_eq_false_2 by (intros Hne; by apply Hne).
  - destruct (website_href container) as [href|].
    + change (VStr <$> Some href) with (Some (VStr href)).
      cbn [default from_option id].
      repeat case_bool_decide; try done; congruence.
    + change (VStr <$> None) with (@None value).
      cbn [default from_option id].
      by rewrite bool_decide_eq_false_2 by (intros Hne; by apply Hne).
Qed.

Lemma placeholders_are_delivered_as_null_witness :
  ∃ record,
    _extract_single_business no_override name_only = Some record
    ∧ notion_contact "telephone" record = None
    ∧ notion_contact "site_web" record = None.
Proof.
  assert (is_Some (_extract_single_business no_override name_only))
    as [record E] by by_evaluation.
  exists record. split; [exact E|].
  destruct (placeholders_are_delivered_as_null no_override name_only
              record E) as (H1 & H2).
  rewrite H1, H2. split; by_evaluation.
Defined.

(** ** Uploaded file names *)

Lemma contains_singleton (c : N) (s : str) :
  Py.contains [c] s = true ↔ c ∈ s.
Proof.
  induction s as [|d s IH]; simpl.
  - split; [done|]. intros H. by apply elem_of_nil in H.
  - rewrite orb_true_iff, IH, elem_of_cons, andb_true_r, N.eqb_eq. done.
Qed.

Lemma while_stop (p : N → bool) (a b : str) (x : N) :
  Forall (fun c => p c = true) a → p x = false →
  Py.take_while p (a ++ x :: b) = a
  ∧ Py.drop_while p (a ++ x :: b) = x :: b.
Proof.
  intros Ha Hx. induction Ha as [|c a Hc _ [IH1 IH2]]; simpl.
  - by rewrite Hx.
  - rewrite Hc. by rewrite IH1, IH2.
Qed.

(** X16. [allowed_file] accepts exactly the names that end in a dot
    followed by an extension without a dot which, in lower case, is
    [html] or [htm]. *)
Theorem allowed_file_accepts_html_extensions (filename : str) :
  allowed_file filename = true ↔
  ∃ stem extension,
    filename = stem ++ 46 :: extension
    ∧ (46 ∉ extension)
    ∧ Py.lower extension ∈ ALLOWED_EXTENSIONS.
Proof.
  unfold allowed_file, rsplit1. cbv zeta.
  set (p := fun c : N => negb (c =? 46)).
  split.
  - intros H. apply andb_true_iff in H as [_ H].
    destruct (take_drop_while p (reverse filename)) as (Hr & Ht & Hd).
    destruct (Py.drop_while p (reverse filename)) as [|x stem]; [done|].
    simpl in H. apply bool_decide_eq_true in H.
    simpl in Hd. unfold p in Hd. apply negb_false_iff, N.eqb_eq in Hd.
    subst x.
    exists (reverse stem), (reverse (Py.take_while p (reverse filename))).
    split; [|split; [|done]].
    + apply (f_equal reverse) in Hr.
      rewrite reverse_involutive, reverse_app, reverse_cons in Hr.
      by rewrite <- app_assoc in Hr.
    + rewrite elem_of_reverse. intros Hin.
      rewrite Forall_forall in Ht. specialize (Ht _ Hin).
      by vm_compute in Ht.
  - intros (stem & extension & -> & Hdot & Hext).
    apply andb_true_iff. split.
    + apply contains_singleton. apply elem_of_app. right. by left.
    + rewrite reverse_app, reverse_cons, <- app_assoc. simpl.
      destruct (while_stop p (reverse extension) (reverse stem) 46)
        as [Ht Hd]; [|done|].
      { apply Forall_forall. intros c Hc. rewrite elem_of_reverse in Hc.
        unfold p. apply negb_true_iff, N.eqb_neq. by intros ->. }
      rewrite Ht, Hd. simpl. rewrite reverse_involutive.
      by apply bool_decide_eq_true.
Qed.

(** ** The fixed city entered in the upload form *)

Lemma lstrip_head (s : str) :
  from_option Py.is_space false (head (Py.lstrip s)) = false.
Proof.
  induction s as [|c s IH]; simpl; [done|].
  destruct (Py.is_space c) eqn:Hc; [done|]. simpl. by rewrite Hc.
Qed.

Lemma lstrip_fixed (s : str) :
  from_option Py.is_space false (head s) = false → Py.lstrip s = s.
Proof. destruct s as [|c s]; simpl; [done|]. by intros ->. Qed.

Lemma rstrip_idempotent (s : str) : Py.rstrip (Py.rstrip s) = Py.rstrip s.
Proof.
  unfold Py.rstrip. rewrite reverse_involutive.
  by rewrite (lstrip_fixed _ (lstrip_head _)).
Qed.

(** Trimming twice is trimming once. *)
Lemma strip_idempotent (s : str) : Py.strip (Py.strip s) = Py.strip s.
Proof.
  unfold Py.strip.
  assert (Py.lstrip (Py.rstrip (Py.lstrip s)) = Py.rstrip (Py.lstrip s))
    as ->; [|apply rstrip_idempotent].
  apply lstrip_fixed.
  pose proof (lstrip_head s) as Hh.
  destruct (Py.lstrip s) as [|c t]; [done|]. simpl in Hh.
  destruct (strip_head c t Hh) as (t' & Hs).
  unfold Py.strip in Hs. simpl in Hs. rewrite Hh in Hs.
  by rewrite Hs.
Qed.

(** X17. A city entered in the upload form reaches the delivery as it
    was typed, trimmed: when the trimmed field is not empty it is the
    fixed city and the city delivered for every record, and when it is
    empty no fixed city is set. *)
Theorem form_city_is_delivered_trimmed (field : str) :
  match form_default field with
  | Some city =>
      city = Py.strip field ∧ city ≠ []
      ∧ ∀ fixed_category ville,
          _get_or_create_ville_option (configured (Some city) fixed_category)
            ville = city
  | None =>
      Py.strip field = []
      ∧ ∀ fixed_category,
          attr_if_set (default_city (configured None fixed_category)) = None
  end.
Proof.
  unfold form_default. cbv zeta.
  destruct (Py.truthy (Py.strip field)) eqn:Ht.
  - split; [done|]. split; [by apply truthy_nonempty|].
    intros fixed_category ville.
    unfold _get_or_create_ville_option, configured, attr_if_set. simpl.
    rewrite Ht. apply strip_idempotent.
  - split; [|done]. unfold Py.truthy in Ht.
    by apply negb_false_iff, bool_decide_eq_true in Ht.
Qed.
